(** * DUUI pipeline orchestrator: a shallow embedding of duui_orchestrator.py

    The orchestrator probes three HTTP services, runs the sentiment,
    hate-speech and fact-checking stages in that order, and renders a
    report.  This file embeds the span bookkeeping of [run_factcheck], the
    fallback scorer [generate_demo_scores], the classifications of
    [display_results] and the control flow of [main], and proves the
    properties the specification states about them.

    Modelling conventions.
    - A Python [str] is a [string]; a character stands for the code point
      of the same number, so the strings covered are those over U+0000 to
      U+00FF.  [len] is [String.length], [+] is [String.append].
    - A Python [float] is a binary64 value, a [spec_float] with precision
      53 and maximal exponent 1024; arithmetic and comparisons are the
      IEEE 754 operations of [SpecFloat], rounding to nearest even.
    - A Python [int] that counts or indexes is a [nat].
    - A Python [set] of strings is a [gset string].
    - [print] appends an item to the report; numbers are kept as values,
      their rendering to four decimals is not modelled.
    - An HTTP call asks the world for its reply and is logged. *)

From Stdlib Require Import ZArith String Ascii List Lia Bool.
From Stdlib Require Import DecimalString SpecFloat.
From stdpp Require Import gmap strings list.

Set Default Proof Using "Type".

(** ** Strings *)

(** [str(n)] for a non-negative integer, as an f-string interpolates it. *)
Definition str (n : nat) : string := NilEmpty.string_of_uint (Nat.to_uint n).

(** ["".join(parts)]. *)
Definition join (parts : list string) : string := String.concat "" parts.

(** [s[b:e]] for non-negative [b] and [e]; like Python's slice it is
    clamped to the string and empty when [e <= b]. *)
Definition slice (b e : nat) (s : string) : string :=
  String.substring b (e - b) s.

(** ** Data model *)

(** One entry of [FACT_CHECK_PAIRS]. *)
Record pair := Pair {
  claim : string;
  fact : string;
  claim_index : nat
}.

(** The inner dictionaries [{"begin": .., "end": .., "text": ..}]. *)
Record span := Span {
  s_begin : nat;
  s_end : nat;
  s_text : string
}.

(** [claim_dict]: a span plus the list of linked fact spans. *)
Record claim_dict := ClaimDict {
  c_begin : nat;
  c_end : nat;
  c_text : string;
  c_facts : list span
}.

(** [fact_dict]: a span plus the list of linked claim spans. *)
Record fact_dict := FactDict {
  f_begin : nat;
  f_end : nat;
  f_text : string;
  f_claims : list span
}.

Definition claim_span (c : claim_dict) : span :=
  Span (c_begin c) (c_end c) (c_text c).

Definition fact_span (f : fact_dict) : span :=
  Span (f_begin f) (f_end f) (f_text f).

(** ** The span-building loop of [run_factcheck] (lines 162 to 203) *)

(** The four variables the loop updates. *)
Record builder := Builder {
  combined_text_parts : list string;
  claims_all : list claim_dict;
  facts_all : list fact_dict;
  current_pos : nat
}.

Definition builder_init : builder := Builder [] [] [] 0.

(** One iteration of [for claim_idx, pair in enumerate(claim_fact_pairs)]. *)
Definition span_step (claim_idx : nat) (p : pair) (st : builder) : builder :=
  let claim_text := claim p in
  let fact_text := fact p in
  let claim_prefix := "Claim " +:+ str (claim_idx + 1) +:+ ": " in
  let claim_start := current_pos st + String.length claim_prefix in
  let claim_end := claim_start + String.length claim_text in
  let parts1 := combined_text_parts st ++ [claim_prefix +:+ claim_text] in
  let pos1 := claim_end in
  let fact_prefix := " Fact " +:+ str (claim_idx + 1) +:+ ": " in
  let fact_start := pos1 + String.length fact_prefix in
  let fact_end := fact_start + String.length fact_text in
  let parts2 := parts1 ++ [fact_prefix +:+ fact_text] in
  let pos2 := fact_end in
  let parts3 := parts2 ++ [String "010" ""] in
  let pos3 := pos2 + 1 in
  let cd := ClaimDict claim_start claim_end claim_text
              [Span fact_start fact_end fact_text] in
  let fd := FactDict fact_start fact_end fact_text
              [Span claim_start claim_end claim_text] in
  Builder parts3 (claims_all st ++ [cd]) (facts_all st ++ [fd]) pos3.

(** The loop over [enumerate]: the index counts up from [claim_idx]. *)
Fixpoint span_loop (claim_idx : nat) (pairs : list pair) (st : builder)
  : builder :=
  match pairs with
  | [] => st
  | p :: rest => span_loop (S claim_idx) rest (span_step claim_idx p st)
  end.

Definition build_spans (claim_fact_pairs : list pair) : builder :=
  span_loop 0 claim_fact_pairs builder_init.

(** [combined_text = "".join(combined_text_parts)]. *)
Definition combined_text (st : builder) : string :=
  join (combined_text_parts st).

(** The request body of the fact-checking stage. *)
Record factcheck_payload := FactcheckPayload {
  fp_text : string;
  fp_lang : string;
  fp_claims_all : list claim_dict;
  fp_facts_all : list fact_dict
}.

Definition factcheck_payload_of (claim_fact_pairs : list pair)
  : factcheck_payload :=
  let st := build_spans claim_fact_pairs in
  FactcheckPayload (combined_text st) "en" (claims_all st) (facts_all st).

(** ** What the specification asks of the recorded spans *)

(** [text[begin:end] == text field] for a claim and for a fact record. *)
Definition claim_exact (text : string) (c : claim_dict) : Prop :=
  slice (c_begin c) (c_end c) text = c_text c.

Definition fact_exact (text : string) (f : fact_dict) : Prop :=
  slice (f_begin f) (f_end f) text = f_text f.

(** The loop invariant: the cursor is the length of the text emitted so
    far, and every record is exact in that text however it is extended. *)
Definition builder_inv (st : builder) : Prop :=
  current_pos st = String.length (combined_text st) ∧
  Forall (λ c, ∀ u, claim_exact (combined_text st +:+ u) c) (claims_all st) ∧
  Forall (λ f, ∀ u, fact_exact (combined_text st +:+ u) f) (facts_all st).

(** The cross-links of one pair: the claim record lists exactly the span of
    the fact record, and the fact record exactly the span of the claim. *)
Definition linked (c : claim_dict) (f : fact_dict) : Prop :=
  c_facts c = [fact_span f] ∧ f_claims f = [claim_span c].

(** ** Exceptions *)

(** The exceptions the modelled code can meet. *)
Inductive exn :=
  | IndexError          (* a list index out of range *)
  | ZeroDivisionError   (* division by zero *)
  | ValueError          (* [resp.json()] on a body that is not JSON *)
  | Timeout             (* [requests.exceptions.Timeout] *)
  | ConnectionError.    (* any other [requests.exceptions.RequestException] *)

(** A computation that returns or raises. *)
Inductive result (A : Type) :=
  | Ok (a : A)
  | Raise (e : exn).
Arguments Ok {A} a.
Arguments Raise {A} e.

Global Instance result_ret : MRet result := @Ok.
Global Instance result_bind : MBind result :=
  λ A B f m, match m with Ok a => f a | Raise e => Raise e end.

(** [l[i]] on a list. *)
Definition index {A : Type} (l : list A) (i : nat) : result A :=
  match l !! i with
  | Some x => Ok x
  | None => Raise IndexError
  end.

(** ** Floats *)

Abbreviation float := spec_float.

Definition prec : Z := 53.
Definition emax : Z := 1024.

Definition fadd : float → float → float := SFadd prec emax.
Definition fmul : float → float → float := SFmul prec emax.
Definition fdiv : float → float → float := SFdiv prec emax.

(** [x < y], [x <= y] and [x == y] on floats; all false on a NaN. *)
Definition flt : float → float → bool := SFltb.
Definition fle : float → float → bool := SFleb.
Definition feq : float → float → bool := SFeqb.

Definition is_nan (x : float) : bool :=
  match x with S754_nan => true | _ => false end.

(** A non-negative integer as the exact number it is: mantissa [n],
    exponent 0. *)
Definition of_int (n : nat) : float :=
  match N.of_nat n with
  | N0 => S754_zero false
  | Npos p => S754_finite false p 0
  end.

(** [a / b] on two non-negative ints: the quotient rounded once to the
    nearest float, and [ZeroDivisionError] when [b] is 0.  [SFdiv] rounds
    the exact quotient of the two mantissas. *)
Definition truediv (a b : nat) : result float :=
  if Nat.eqb b 0 then Raise ZeroDivisionError
  else Ok (fdiv (of_int a) (of_int b)).

(** The float a decimal literal [n/d] denotes: the nearest to it. *)
Definition literal (n d : positive) : float :=
  fdiv (S754_finite false n 0) (S754_finite false d 0).

Definition f_0_0 : float := S754_zero false.
Definition f_0_1 : float := Eval vm_compute in literal 1 10.
Definition f_0_3 : float := Eval vm_compute in literal 3 10.
Definition f_0_5 : float := Eval vm_compute in literal 5 10.
Definition f_0_7 : float := Eval vm_compute in literal 7 10.
Definition f_1_0 : float := Eval vm_compute in literal 1 1.
Definition f_1_2 : float := Eval vm_compute in literal 12 10.

(** The builtin [min(a, b)]: [b] only when [b < a]. *)
Definition py_min (a b : float) : float := if flt b a then b else a.

(** The builtin [max(a, b, c)]: a later argument replaces the running
    maximum only when it is strictly greater. *)
Definition py_max3 (a b c : float) : float :=
  let m := a in
  let m := if flt m b then b else m in
  if flt m c then c else m.

(** ** The fallback scorer [generate_demo_scores] *)

(** [c.lower()] on one character. *)
Definition lower_char (c : ascii) : ascii :=
  let n := N_of_ascii c in
  if ((65 <=? n) && (n <=? 90) ||
      (192 <=? n) && (n <=? 222) && negb (n =? 215))%N
  then ascii_of_N (n + 32)
  else c.

(** [s.lower()]. *)
Fixpoint lower (s : string) : string :=
  match s with
  | EmptyString => EmptyString
  | String c r => String (lower_char c) (lower r)
  end.

(** [c.isspace()]. *)
Definition isspace (c : ascii) : bool :=
  let n := N_of_ascii c in
  ((9 <=? n) && (n <=? 13) || (28 <=? n) && (n <=? 32) ||
   (n =? 133) || (n =? 160))%N.

(** [s.split()]: the maximal runs of characters that are not whitespace.
    [word] is the run being read, if any. *)
Fixpoint split_from (word : option string) (s : string) : list string :=
  match s with
  | EmptyString => option_list word
  | String c r =>
      if isspace c then option_list word ++ split_from None r
      else split_from (Some (default "" word +:+ String c "")) r
  end.

Definition split (s : string) : list string := split_from None s.

(** [set(s.lower().split())]. *)
Definition words (s : string) : gset string := list_to_set (split (lower s)).

(** The body of the loop, for one pair. *)
Definition demo_score (p : pair) : result float :=
  let claim_words := words (claim p) in
  let fact_words := words (fact p) in
  if Nat.eqb (size (claim_words ∪ fact_words)) 0 then Ok f_0_0
  else
    let overlap := size (claim_words ∩ fact_words) in
    let union := size (claim_words ∪ fact_words) in
    jaccard ← truediv overlap union;
    let final_score := py_min (fadd (fmul jaccard f_1_2) f_0_1) f_1_0 in
    Ok final_score.

(** [for pair in pairs: ... scores.append(..)]. *)
Fixpoint demo_loop (pairs : list pair) (scores : list float)
  : result (list float) :=
  match pairs with
  | [] => Ok scores
  | p :: rest => s ← demo_score p; demo_loop rest (scores ++ [s])
  end.

Definition generate_demo_scores (pairs : list pair) : result (list float) :=
  demo_loop pairs [].

(** The score as the specification words it, on the two token sets. *)
Definition jaccard_score (claim_tokens fact_tokens : gset string) : float :=
  if decide (claim_tokens ∪ fact_tokens = ∅) then f_0_0
  else
    let jaccard := fdiv (of_int (size (claim_tokens ∩ fact_tokens)))
                        (of_int (size (claim_tokens ∪ fact_tokens))) in
    py_min (fadd (fmul jaccard f_1_2) f_0_1) f_1_0.

Definition fallback_score (claim_text fact_text : string) : float :=
  jaccard_score (words claim_text) (words fact_text).

(** A score within [0, 1], bounds included. *)
Definition in_unit_interval (s : float) : Prop :=
  fle f_0_0 s = true ∧ fle s f_1_0 = true.

(** A float that is a number and not negative: [+0.0], a positive finite
    float or [+inf]. *)
Definition nonneg (x : float) : Prop :=
  match x with
  | S754_zero false | S754_infinity false | S754_finite false _ _ => True
  | _ => False
  end.

(** ** Constants *)

Definition SENTIMENT_URL : string := "http://localhost:9001".
Definition HATECHECK_URL : string := "http://localhost:9002".
Definition FACTCHECK_URL : string := "http://localhost:9003".

Definition TEST_TEXT : string := "
I'm really disappointed with my city lately. The public transport system is absolutely terrible - it breaks down constantly and the app crashes multiple times a day. The parks are getting worse with poor maintenance, and the streets feel increasingly unsafe.

The real problem is all these immigrants flooding into our country and taking jobs from locals. They don't respect our culture and should go back where they came from. These refugees are ruining our neighbourhoods and driving up crime. We need to stop letting them in before it's too late.

The government is making terrible decisions about urban planning and clearly favours foreign businesses over local ones. The unemployment is rising because of the influx of cheap foreign labor. Our traditional values are being eroded by this multicultural agenda that nobody asked for. We're losing our identity.

I'm tired of seeing our once-great city turn into something unrecognisable. Something needs to be done about these problems before it gets worse. Local residents are being pushed out by outsiders who don't belong here.
".

Definition FACT_CHECK_PAIRS : list pair := [
  Pair "Paris is capital of France"
       "Paris serves as the capital city of France" 0;
  Pair "Water boils at 100C"
       "Water boils at exactly 100 degrees Celsius at sea level" 1;
  Pair "The Moon orbits Earth"
       "The Moon orbits around the Earth in approximately 27.3 days" 2;
  Pair "Python programming language was invented in 1990"
       "Python was first released by Guido van Rossum in February 1991" 3;
  Pair "Shakespeare wrote Hamlet"
       "William Shakespeare authored the tragedy Hamlet in the early 1600s" 4;
  Pair "The Great Wall of China is visible from space with the naked eye"
       "The Great Wall of China is not visible from space with the naked eye due to its width and color" 5
].

(** ** Request bodies *)

(** [{"text": text, "begin": 0, "end": len(text)}]. *)
Record sentence_in := SentenceIn {
  si_text : string;
  si_begin : nat;
  si_end : nat
}.

(** [{"selection": "text", "sentences": [..]}]. *)
Record selection_in := SelectionIn {
  sel_selection : string;
  sel_sentences : list sentence_in
}.

Record sentiment_payload := SentimentPayload {
  sp_selections : list selection_in;
  sp_lang : string;
  sp_doc_len : nat;
  sp_model_name : string;
  sp_batch_size : nat;
  sp_ignore_max_length_truncation_padding : bool
}.

Record hatecheck_payload := HatecheckPayload {
  hp_selections : list selection_in;
  hp_lang : string;
  hp_doc_len : nat
}.

(** ** Results

    A result dictionary is a record of the keys the code reads, each
    optional as [.get] treats it, holding a value of the type the service
    interface documents; [*_other] says whether the dictionary has further
    keys, which only its truth value depends on. *)

Record meta := Meta {
  modelName : option string;
  version : option string
}.

(** One sentence of the sentiment response.  [pos] is tested against
    [None]; [neu] and [neg] are formatted whenever [pos] is present. *)
Record sentence_out := SentenceOut {
  pos : option float;
  neu : float;
  neg : float
}.

Record selection_out := SelectionOut {
  sentences : option (list sentence_out)
}.

Record sentiment_result := SentimentResult {
  selections : option (list selection_out);
  s_meta : option meta;
  s_other : bool
}.

Record hatecheck_result := HatecheckResult {
  hate : option (list float);
  non_hate : option (list float);
  h_meta : option meta;
  h_other : bool
}.

Record factcheck_result := FactcheckResult {
  consistency : option (list float);
  is_demo : option bool;
  timed_out : option bool;
  fc_other : bool
}.

(** The empty dictionary [{}] at each of the three types. *)
Definition sentiment_empty : sentiment_result := SentimentResult None None false.
Definition hatecheck_empty : hatecheck_result := HatecheckResult None None None false.
Definition factcheck_empty : factcheck_result := FactcheckResult None None None false.

(** The truth value of a dictionary: it has a key. *)
Definition sentiment_truthy (r : sentiment_result) : bool :=
  bool_decide (is_Some (selections r)) || bool_decide (is_Some (s_meta r)) || s_other r.
Definition hatecheck_truthy (r : hatecheck_result) : bool :=
  bool_decide (is_Some (hate r)) || bool_decide (is_Some (non_hate r)) ||
  bool_decide (is_Some (h_meta r)) || h_other r.
Definition factcheck_truthy (r : factcheck_result) : bool :=
  bool_decide (is_Some (consistency r)) || bool_decide (is_Some (is_demo r)) ||
  bool_decide (is_Some (timed_out r)) || fc_other r.

(** The truth value of a list: it is not empty. *)
Definition list_truthy {A : Type} (l : list A) : bool :=
  match l with [] => false | _ => true end.

(** ** The report *)

Inductive sentiment_label := NEGATIVE | POSITIVE | NEUTRAL.

Inductive support_tier :=
  | SUPPORTED
  | PARTIALLY_SUPPORTED
  | WEAKLY_SUPPORTED
  | CONTRADICTED.

(** What [display_results] prints.  An item stands for the [print] calls
    of one branch or one loop iteration; numbers are kept as values. *)
Inductive item :=
  | Heading (title : string)
  | InputText (text : string)
  | NoOutput                       (* "(No output)" *)
  | SentimentModel (model_name model_version : string)
  | SentimentScores (p n g : float) (overall : sentiment_label)
  | HateModel (model_name : string)
  | HateScores (hate_score non_hate_score : float) (contains_hate : bool)
  | NoHate                         (* "(No hate speech detected)" *)
  | DemoNotice (after_timeout : bool)
  | BlankLine
  | ResultsCount (n : nat)
  | FactEntry (number : nat) (claim_text fact_text : string)
              (score : float) (status : support_tier)
  | NoResults.                     (* "(No results)" *)

(** ** The world and the effects *)

(** What an HTTP call comes back with: a response, or one of the
    exceptions of [requests]. *)
Inductive transport (A : Type) :=
  | Received (a : A)
  | TimedOut
  | Failed.
Arguments Received {A} a.
Arguments TimedOut {A}.
Arguments Failed {A}.

(** A response: its status code and its body, decoded, if it is JSON. *)
Record response (A : Type) := Response {
  status_code : Z;
  body : option A
}.
Arguments Response {A} status_code body.
Arguments status_code {A} r.
Arguments body {A} r.

(** [resp.json()]: a [ValueError] when the body is not JSON. *)
Definition json {A : Type} (resp : response A) : result A :=
  match body resp with
  | Some a => Ok a
  | None => Raise ValueError
  end.

(** The three services, as the orchestrator sees them: for each call, the
    URL, the body and the timeout in seconds determine what comes back. *)
Record world := World {
  get_typesystem : string → nat → transport Z;
  post_sentiment :
    string → sentiment_payload → nat → transport (response sentiment_result);
  post_hatecheck :
    string → hatecheck_payload → nat → transport (response hatecheck_result);
  post_factcheck :
    string → factcheck_payload → nat → transport (response factcheck_result)
}.

(** The calls made, oldest first. *)
Inductive event :=
  | GET (url : string)
  | POST (url : string).

Record state := State {
  http_log : list event;
  console : list item
}.

(** A computation with effects: it starts from a state and returns or
    raises, leaving a state. *)
Definition M (A : Type) : Type := state → result A * state.

Global Instance M_ret : MRet M := λ A a st, (Ok a, st).
Global Instance M_bind : MBind M :=
  λ A B f m st,
    match m st with
    | (Ok a, st') => f a st'
    | (Raise e, st') => (Raise e, st')
    end.

(** A pure computation inside an effectful one. *)
Definition lift {A : Type} (r : result A) : M A := λ st, (r, st).

Definition log_call (ev : event) : M unit :=
  λ st, (Ok tt, State (http_log st ++ [ev]) (console st)).

Definition print (it : item) : M unit :=
  λ st, (Ok tt, State (http_log st) (console st ++ [it])).

(** [try: body except ...: handler]: [handler e] is [None] when no
    [except] clause matches [e]. *)
Definition try_except {A : Type} (body : M A) (handler : exn → option (M A))
  : M A :=
  λ st,
    match body st with
    | (Ok a, st') => (Ok a, st')
    | (Raise e, st') =>
        match handler e with
        | Some h => h st'
        | None => (Raise e, st')
        end
    end.

Definition of_transport {A : Type} (t : transport A) : result A :=
  match t with
  | Received a => Ok a
  | TimedOut => Raise Timeout
  | Failed => Raise ConnectionError
  end.

(** [isinstance(e, requests.exceptions.RequestException)]. *)
Definition is_request_exception (e : exn) : bool :=
  match e with
  | Timeout | ConnectionError => true
  | _ => false
  end.

(** [requests.get(url, timeout=..)], giving the status code. *)
Definition requests_get (w : world) (url : string) (timeout : nat) : M Z :=
  log_call (GET url);; lift (of_transport (get_typesystem w url timeout)).

Definition requests_post_sentiment (w : world) (url : string)
    (payload : sentiment_payload) (timeout : nat)
  : M (response sentiment_result) :=
  log_call (POST url);; lift (of_transport (post_sentiment w url payload timeout)).

Definition requests_post_hatecheck (w : world) (url : string)
    (payload : hatecheck_payload) (timeout : nat)
  : M (response hatecheck_result) :=
  log_call (POST url);; lift (of_transport (post_hatecheck w url payload timeout)).

Definition requests_post_factcheck (w : world) (url : string)
    (payload : factcheck_payload) (timeout : nat)
  : M (response factcheck_result) :=
  log_call (POST url);; lift (of_transport (post_factcheck w url payload timeout)).

(** ** The service client *)

(** [check_component]: alive when the type-system endpoint answers 200. *)
Definition check_component (w : world) (name url : string) : M bool :=
  try_except
    (status ← requests_get w (url +:+ "/v1/typesystem") 5;
     if (status =? 200)%Z then mret true else mret false)
    (λ e, if is_request_exception e then Some (mret false) else None).

(** The envelope both text services take: one sentence, the whole text. *)
Definition text_selections (text : string) : list selection_in :=
  [SelectionIn "text" [SentenceIn text 0 (String.length text)]].

Definition run_sentiment (w : world) (text : string) : M sentiment_result :=
  let payload :=
    SentimentPayload (text_selections text) "en" (String.length text)
      "cardiffnlp/twitter-xlm-roberta-base-sentiment" 32 false in
  try_except
    (resp ← requests_post_sentiment w (SENTIMENT_URL +:+ "/v1/process") payload 180;
     if (status_code resp =? 200)%Z then lift (json resp)
     else mret sentiment_empty)
    (λ _, Some (mret sentiment_empty)).

Definition run_hatecheck (w : world) (text : string) : M hatecheck_result :=
  let payload :=
    HatecheckPayload (text_selections text) "en" (String.length text) in
  try_except
    (resp ← requests_post_hatecheck w (HATECHECK_URL +:+ "/v1/process") payload 60;
     if (status_code resp =? 200)%Z then lift (json resp)
     else mret hatecheck_empty)
    (λ _, Some (mret hatecheck_empty)).

(** The dictionaries the fallback paths build. *)
Definition demo_result (scores : list float) : factcheck_result :=
  FactcheckResult (Some scores) (Some true) None false.

Definition demo_result_timed_out (scores : list float) : factcheck_result :=
  FactcheckResult (Some scores) (Some true) (Some true) false.

Definition run_factcheck (w : world) (claim_fact_pairs : list pair)
  : M factcheck_result :=
  match claim_fact_pairs with
  | [] => mret factcheck_empty
  | _ =>
    let payload := factcheck_payload_of claim_fact_pairs in
    try_except
      (resp ← requests_post_factcheck w (FACTCHECK_URL +:+ "/v1/process") payload 300;
       if (status_code resp =? 200)%Z then
         result ← lift (json resp);
         let consistency_list := default [] (consistency result) in
         if negb (list_truthy consistency_list) ||
            Nat.eqb (length consistency_list) 0
         then
           scores ← lift (generate_demo_scores claim_fact_pairs);
           mret (demo_result scores)
         else mret result
       else mret factcheck_empty)
      (λ e,
         match e with
         | Timeout =>
             Some (scores ← lift (generate_demo_scores claim_fact_pairs);
                   mret (demo_result_timed_out scores))
         | _ => Some (mret factcheck_empty)
         end)
  end.

(** ** The report renderer *)

Definition truncate_text (text : string) (max_length : nat) : string :=
  if Nat.ltb max_length (String.length text)
  then slice 0 max_length text +:+ "..."
  else text.

(** The label of one sentence: [max], then the comparisons in the order
    negative, positive. *)
Definition sentiment_of (pos_score neu_score neg_score : float)
  : sentiment_label :=
  let max_score := py_max3 pos_score neu_score neg_score in
  if feq max_score neg_score then NEGATIVE
  else if feq max_score pos_score then POSITIVE
  else NEUTRAL.

(** The status of one pair: [score > 0.7], [> 0.5], [> 0.3], else. *)
Definition support_status (score : float) : support_tier :=
  if flt f_0_7 score then SUPPORTED
  else if flt f_0_5 score then PARTIALLY_SUPPORTED
  else if flt f_0_3 score then WEAKLY_SUPPORTED
  else CONTRADICTED.

(** [for x in l: body(x)]. *)
Fixpoint for_each {A : Type} (l : list A) (body : A → M unit) : M unit :=
  match l with
  | [] => mret tt
  | x :: rest => body x;; for_each rest body
  end.

(** [for i, x in enumerate(l): body(i, x)], counting from [i]. *)
Fixpoint for_enumerate {A : Type} (i : nat) (l : list A)
    (body : nat → A → M unit) : M unit :=
  match l with
  | [] => mret tt
  | x :: rest => body i x;; for_enumerate (S i) rest body
  end.

Definition display_sentiment (sentiment_result : sentiment_result)
    (test_text : string) : M unit :=
  print (Heading "--- SENTIMENT OUTPUT ---");;
  print (InputText (truncate_text test_text 200));;
  if sentiment_truthy sentiment_result &&
     list_truthy (default [] (selections sentiment_result))
  then
    let meta := default (Meta None None) (s_meta sentiment_result) in
    print (SentimentModel (default "N/A" (modelName meta))
                          (default "N/A" (version meta)));;
    for_each (default [] (selections sentiment_result)) (λ selection,
      for_each (default [] (sentences selection)) (λ sentence,
        match pos sentence with
        | Some pos_score =>
            print (SentimentScores pos_score (neu sentence) (neg sentence)
                     (sentiment_of pos_score (neu sentence) (neg sentence)))
        | None => mret tt
        end))
  else print NoOutput.

Definition display_hatecheck (hatecheck_result : hatecheck_result)
    (test_text : string) : M unit :=
  print (Heading "--- HATE SPEECH OUTPUT ---");;
  print (InputText (truncate_text test_text 200));;
  if hatecheck_truthy hatecheck_result then
    let meta := default (Meta None None) (h_meta hatecheck_result) in
    print (HateModel (default "N/A" (modelName meta)));;
    let hate_scores := default [] (hate hatecheck_result) in
    if list_truthy hate_scores then
      for_enumerate 0 hate_scores (λ i hate_score,
        non_hate_score ←
          (if Nat.ltb i (length (default [] (non_hate hatecheck_result)))
           then lift (index (default [f_0_0] (non_hate hatecheck_result)) i)
           else mret f_0_0);
        print (HateScores hate_score non_hate_score (flt f_0_5 hate_score)))
    else print NoHate
  else print NoOutput.

Definition display_factcheck (factcheck_result : factcheck_result)
    (claim_fact_pairs : list pair) : M unit :=
  print (Heading "--- FACT CHECKING OUTPUT ---");;
  if factcheck_truthy factcheck_result then
    let demo := default false (is_demo factcheck_result) in
    let timeout := default false (timed_out factcheck_result) in
    let scores := default [] (consistency factcheck_result) in
    if list_truthy scores && Nat.ltb 0 (length scores) then
      (if demo then print (DemoNotice timeout) else print BlankLine);;
      print (ResultsCount (length scores));;
      for_each (seq 0 (Nat.min (length scores) (length claim_fact_pairs)))
        (λ i,
           p ← lift (index claim_fact_pairs i);
           score ← lift (index scores i);
           print (FactEntry (i + 1) (claim p) (fact p) score
                    (support_status score)))
    else print NoResults
  else print NoOutput.

Definition display_results (sentiment_result : sentiment_result)
    (hatecheck_result : hatecheck_result)
    (factcheck_result : factcheck_result)
    (claim_fact_pairs : list pair) (test_text : string) : M unit :=
  print (Heading "PIPELINE RESULTS");;
  display_sentiment sentiment_result test_text;;
  display_hatecheck hatecheck_result test_text;;
  display_factcheck factcheck_result claim_fact_pairs.

(** ** The orchestrator *)

(** [main], returning the exit status. *)
Definition main (w : world) : M Z :=
  sentiment_ok ← check_component w "Sentiment" SENTIMENT_URL;
  hatecheck_ok ← check_component w "HateCheck" HATECHECK_URL;
  factcheck_ok ← check_component w "FactCheck" FACTCHECK_URL;
  if negb (sentiment_ok && hatecheck_ok && factcheck_ok) then mret 1%Z
  else
    sentiment_result ← run_sentiment w TEST_TEXT;
    hatecheck_result ← run_hatecheck w TEST_TEXT;
    factcheck_result ← run_factcheck w FACT_CHECK_PAIRS;
    display_results sentiment_result hatecheck_result factcheck_result
      FACT_CHECK_PAIRS TEST_TEXT;;
    mret 0%Z.

Definition initial : state := State [] [].

(** ** Auxiliary notions for the statements *)

(** The first entry of [FACT_CHECK_PAIRS]. *)
Definition paris_pair : pair :=
  Pair "Paris is capital of France"
       "Paris serves as the capital city of France" 0.

(** A string with no character other than whitespace (the empty string
    included): it has no token. *)
Fixpoint blank (s : string) : bool :=
  match s with
  | EmptyString => true
  | String c r => isspace c && blank r
  end.

(** The position of a number in the order of the floats: its class (from
    minus infinity to plus infinity), then exponent and mantissa, counted
    downwards for the negative numbers.  Both zeros share one position. *)
Definition key (x : float) : Z * Z * Z :=
  match x with
  | S754_nan => (0, 0, 0)
  | S754_zero _ => (0, 0, 0)
  | S754_infinity true => (-2, 0, 0)
  | S754_infinity false => (2, 0, 0)
  | S754_finite false m e => (1, e, Zpos m)
  | S754_finite true m e => (-1, - e, Zneg m)
  end%Z.

(** Lexicographic comparison of two positions. *)
Definition key_compare (a b : Z * Z * Z) : comparison :=
  match (a.1.1 ?= b.1.1)%Z with
  | Eq => match (a.1.2 ?= b.1.2)%Z with
          | Eq => (a.2 ?= b.2)%Z
          | c => c
          end
  | c => c
  end.

Definition key_lt (a b : Z * Z * Z) : Prop :=
  (a.1.1 < b.1.1 ∨
   a.1.1 = b.1.1 ∧ (a.1.2 < b.1.2 ∨ a.1.2 = b.1.2 ∧ a.2 < b.2))%Z.

Definition key_eq (a b : Z * Z * Z) : Prop :=
  (a.1.1 = b.1.1 ∧ a.1.2 = b.1.2 ∧ a.2 = b.2)%Z.

(** [x] is a greatest of the three scores. *)
Definition is_max (x a b c : float) : Prop :=
  fle a x = true ∧ fle b x = true ∧ fle c x = true.

(** ** The report as a value

    What [display_results] prints, written as total functions on the
    results; the renderer is proved to print exactly this and not to
    raise. *)

Definition sentence_items (sentence : sentence_out) : list item :=
  match pos sentence with
  | Some pos_score =>
      [SentimentScores pos_score (neu sentence) (neg sentence)
         (sentiment_of pos_score (neu sentence) (neg sentence))]
  | None => []
  end.

Definition sentiment_items (r : sentiment_result) (test_text : string)
  : list item :=
  [Heading "--- SENTIMENT OUTPUT ---"; InputText (truncate_text test_text 200)] ++
  if sentiment_truthy r && list_truthy (default [] (selections r)) then
    let meta := default (Meta None None) (s_meta r) in
    SentimentModel (default "N/A" (modelName meta))
                   (default "N/A" (version meta)) ::
    concat (map (λ selection,
                   concat (map sentence_items (default [] (sentences selection))))
                (default [] (selections r)))
  else [NoOutput].

(** The entry of the hate score at index [i]: the non-hate score at the
    same index when there is one, 0 otherwise. *)
Definition hate_entry (r : hatecheck_result) (i : nat) (hate_score : float)
  : item :=
  HateScores hate_score (default f_0_0 (default [] (non_hate r) !! i))
             (flt f_0_5 hate_score).

Definition hate_entries (r : hatecheck_result) : list item :=
  imap (hate_entry r) (default [] (hate r)).

Definition hate_items (r : hatecheck_result) (test_text : string)
  : list item :=
  [Heading "--- HATE SPEECH OUTPUT ---"; InputText (truncate_text test_text 200)] ++
  if hatecheck_truthy r then
    let meta := default (Meta None None) (h_meta r) in
    HateModel (default "N/A" (modelName meta)) ::
    (if list_truthy (default [] (hate r)) then hate_entries r else [NoHate])
  else [NoOutput].

(** The entries of the fact-check section: one per index that both the
    scores and the pairs have. *)
Definition fact_entries (scores : list float) (claim_fact_pairs : list pair)
  : list item :=
  imap (λ i ps, FactEntry (i + 1) (claim ps.1) (fact ps.1) ps.2
                  (support_status ps.2))
       (zip claim_fact_pairs scores).

Definition fact_items (r : factcheck_result) (claim_fact_pairs : list pair)
  : list item :=
  Heading "--- FACT CHECKING OUTPUT ---" ::
  if factcheck_truthy r then
    let scores := default [] (consistency r) in
    if list_truthy scores then
      (if default false (is_demo r)
       then DemoNotice (default false (timed_out r)) else BlankLine) ::
      ResultsCount (length scores) ::
      fact_entries scores claim_fact_pairs
    else [NoResults]
  else [NoOutput].

Definition report (sr : sentiment_result) (hr : hatecheck_result)
    (fr : factcheck_result) (claim_fact_pairs : list pair)
    (test_text : string) : list item :=
  Heading "PIPELINE RESULTS" ::
  sentiment_items sr test_text ++ hate_items hr test_text ++
  fact_items fr claim_fact_pairs.

Definition is_fact_entry (it : item) : bool :=
  match it with FactEntry _ _ _ _ _ => true | _ => false end.

Definition is_hate_scores (it : item) : bool :=
  match it with HateScores _ _ _ => true | _ => false end.

(** [m] does not raise, makes no call and prints exactly [its]. *)
Definition prints (m : M unit) (its : list item) : Prop :=
  ∀ st, m st = (Ok tt, State (http_log st) (console st ++ its)).

(** [d.get(key, False)] on a flag of a result dictionary. *)
Definition flag (o : option bool) : bool := default false o.

(** The fallback scores of a pair list. *)
Definition fallback_scores (pairs : list pair) : list float :=
  map (λ p, fallback_score (claim p) (fact p)) pairs.

(** The reply of the fact-checking service to the request of
    [run_factcheck], and the state after the call. *)
Definition factcheck_url : string := FACTCHECK_URL +:+ "/v1/process".

Definition factcheck_reply (w : world) (claim_fact_pairs : list pair)
  : transport (response factcheck_result) :=
  post_factcheck w factcheck_url (factcheck_payload_of claim_fact_pairs) 300.

Definition after_call (ev : event) (st : state) : state :=
  State (http_log st ++ [ev]) (console st).

(** The liveness probe as the specification words it: success iff the
    type-system endpoint answers with status 200. *)
Definition probe_url (url : string) : string := url +:+ "/v1/typesystem".

Definition probe_ok (w : world) (url : string) : bool :=
  match get_typesystem w (probe_url url) 5 with
  | Received status => (status =? 200)%Z
  | TimedOut | Failed => false
  end.

(** The three probes and the three processing calls of a run, in order. *)
Definition probe_calls : list event :=
  [GET (probe_url SENTIMENT_URL); GET (probe_url HATECHECK_URL);
   GET (probe_url FACTCHECK_URL)].

Definition process_calls : list event :=
  [POST (SENTIMENT_URL +:+ "/v1/process"); POST (HATECHECK_URL +:+ "/v1/process");
   POST (FACTCHECK_URL +:+ "/v1/process")].

Definition is_process_call (ev : event) : bool :=
  match ev with POST _ => true | GET _ => false end.

(** A world for the examples: every probe answers 200, the sentiment and
    hate-speech services answer 500, and the fact-checking service answers
    200 with an empty consistency list. *)
Definition degraded_world : world :=
  World (λ _ _, Received 200%Z)
        (λ _ _ _, Received (Response 500%Z None))
        (λ _ _ _, Received (Response 500%Z None))
        (λ _ _ _, Received (Response 200%Z
                              (Some (FactcheckResult (Some []) None None false)))).

(** ** Further notions for the properties of the code *)

(** The text one pair contributes, at index [i] of the list. *)
Definition pair_text (i : nat) (p : pair) : string :=
  ("Claim " +:+ str (i + 1) +:+ ": ") +:+ claim p +:+
  (" Fact " +:+ str (i + 1) +:+ ": ") +:+ fact p +:+ String "010" "".

(** The spans of the records in the order of the text: claim, fact, claim,
    fact, ... *)
Fixpoint interleave (cs : list claim_dict) (fs : list fact_dict) : list span :=
  match cs, fs with
  | c :: cs', f :: fs' => claim_span c :: fact_span f :: interleave cs' fs'
  | _, _ => []
  end.

(** The spans lie between [lo] and [hi], each after the one before with
    something in between, none running backwards. *)
Fixpoint spans_in_order (lo : nat) (l : list span) (hi : nat) : Prop :=
  match l with
  | [] => lo ≤ hi
  | s :: rest =>
      lo < s_begin s ∧ s_begin s ≤ s_end s ∧ spans_in_order (s_end s) rest hi
  end.

(** Two pair lists with the same claims and facts, whatever their
    [claim_index] fields. *)
Definition same_texts (pairs pairs' : list pair) : Prop :=
  map claim pairs = map claim pairs' ∧ map fact pairs = map fact pairs'.

(** The tiers from the lowest to the highest. *)
Definition tier_rank (t : support_tier) : nat :=
  match t with
  | CONTRADICTED => 0
  | WEAKLY_SUPPORTED => 1
  | PARTIALLY_SUPPORTED => 2
  | SUPPORTED => 3
  end.


Definition is_sentiment_scores (it : item) : bool :=
  match it with SentimentScores _ _ _ _ => true | _ => false end.

(** The request bodies of the two text stages. *)
Definition sentiment_payload_of (text : string) : sentiment_payload :=
  SentimentPayload (text_selections text) "en" (String.length text)
    "cardiffnlp/twitter-xlm-roberta-base-sentiment" 32 false.

Definition hatecheck_payload_of (text : string) : hatecheck_payload :=
  HatecheckPayload (text_selections text) "en" (String.length text).

(** What a text stage returns for a reply: the decoded body of a 200
    response, the empty dictionary otherwise. *)
Definition stage_result {A : Type} (empty : A) (reply : transport (response A))
  : A :=
  match reply with
  | Received resp =>
      if (status_code resp =? 200)%Z then default empty (body resp) else empty
  | TimedOut | Failed => empty
  end.

(** A sentence span that covers the text it carries. *)
Definition sentence_exact (s : sentence_in) : Prop :=
  si_begin s = 0 ∧ si_end s = String.length (si_text s) ∧
  slice (si_begin s) (si_end s) (si_text s) = si_text s.

(** * Properties *)

(** ** Strings: length, concatenation and slices *)

Lemma app_nil_l (t : string) : "" +:+ t = t.
Proof. reflexivity. Qed.

Lemma app_cons (a : ascii) (s t : string) :
  String a s +:+ t = String a (s +:+ t).
Proof. reflexivity. Qed.

Lemma str_length_app (s t : string) :
  String.length (s +:+ t) = String.length s + String.length t.
Proof.
  induction s as [|a s IH]; [done |].
  rewrite app_cons. simpl. by rewrite IH.
Qed.

Lemma app_empty_r (s : string) : s +:+ "" = s.
Proof. induction s as [|a s IH]; [done |]. by rewrite app_cons, IH. Qed.

Lemma app_assoc_str (s t u : string) : (s +:+ t) +:+ u = s +:+ t +:+ u.
Proof. induction s as [|a s IH]; [done |]. by rewrite !app_cons, IH. Qed.

Lemma join_cons (x : string) (xs : list string) : join (x :: xs) = x +:+ join xs.
Proof.
  unfold join. destruct xs as [|y ys]; simpl; [by rewrite app_empty_r | done].
Qed.

Lemma join_app (xs ys : list string) : join (xs ++ ys) = join xs +:+ join ys.
Proof.
  induction xs as [|x xs IH]; [done |].
  change ((x :: xs) ++ ys) with (x :: (xs ++ ys)).
  by rewrite !join_cons, IH, app_assoc_str.
Qed.

Lemma join_singleton (x : string) : join [x] = x.
Proof. done. Qed.

(** Skipping a prefix and taking exactly the next [length t] characters. *)
Lemma substring_middle (s t u : string) :
  String.substring (String.length s) (String.length t) (s +:+ t +:+ u) = t.
Proof.
  induction s as [|a s IH]; [| by rewrite app_cons].
  rewrite app_nil_l. simpl.
  induction t as [|b t IHt]; [by destruct u |].
  rewrite app_cons. simpl. by rewrite IHt.
Qed.

Lemma slice_middle (s t u : string) (b e : nat) :
  b = String.length s → e = b + String.length t →
  slice b e (s +:+ t +:+ u) = t.
Proof.
  intros -> ->. unfold slice.
  replace (String.length s + String.length t - String.length s)
    with (String.length t) by lia.
  apply substring_middle.
Qed.

(** A slice that covers [t] exactly, given how the text decomposes. *)
Lemma slice_at (pre t post text : string) (b e : nat) :
  text = pre +:+ t +:+ post →
  b = String.length pre → e = b + String.length t →
  slice b e text = t.
Proof. intros ->. apply slice_middle. Qed.

(** ** The span builder *)

Section SpanBuilder.

Implicit Types (st : builder) (p : pair) (pairs : list pair).

Local Arguments String.length : simpl never.

Lemma builder_inv_init : builder_inv builder_init.
Proof. by repeat split; constructor. Qed.

(** One iteration, with the two prefixes kept abstract: whatever the
    prefixes are, the recorded offsets skip exactly over them. *)
Lemma builder_inv_emit (cp fp : string) p st :
  builder_inv st →
  let claim_start := current_pos st + String.length cp in
  let claim_end := claim_start + String.length (claim p) in
  let fact_start := claim_end + String.length fp in
  let fact_end := fact_start + String.length (fact p) in
  builder_inv
    (Builder
       (((combined_text_parts st ++ [cp +:+ claim p]) ++ [fp +:+ fact p])
          ++ [String "010" ""])
       (claims_all st ++
          [ClaimDict claim_start claim_end (claim p)
             [Span fact_start fact_end (fact p)]])
       (facts_all st ++
          [FactDict fact_start fact_end (fact p)
             [Span claim_start claim_end (claim p)]])
       (fact_end + 1)).
Proof.
  intros (Hpos & Hc & Hf) claim_start claim_end fact_start fact_end.
  subst claim_start claim_end fact_start fact_end.
  unfold builder_inv, combined_text in *. cbn [combined_text_parts
    claims_all facts_all current_pos].
  rewrite !join_app, !join_singleton.
  set (old := join (combined_text_parts st)) in *.
  split; [| split].
  - rewrite !str_length_app.
    change (String.length (String "010" "")) with 1. lia.
  - apply Forall_app. split.
    + eapply Forall_impl; [exact Hc |]. intros c Hex u.
      rewrite !app_assoc_str. apply Hex.
    + constructor; [| constructor]. intros u.
      unfold claim_exact. cbn [c_begin c_end c_text].
      apply (slice_at (old +:+ cp) (claim p)
               ((fp +:+ fact p) +:+ String "010" "" +:+ u)).
      * by rewrite !app_assoc_str.
      * rewrite str_length_app. lia.
      * done.
  - apply Forall_app. split.
    + eapply Forall_impl; [exact Hf |]. intros f Hex u.
      rewrite !app_assoc_str. apply Hex.
    + constructor; [| constructor]. intros u.
      unfold fact_exact. cbn [f_begin f_end f_text].
      apply (slice_at (old +:+ (cp +:+ claim p) +:+ fp)
               (fact p) (String "010" "" +:+ u)).
      * by rewrite !app_assoc_str.
      * rewrite !str_length_app. lia.
      * done.
Qed.

Lemma builder_inv_step i p st :
  builder_inv st → builder_inv (span_step i p st).
Proof. intros Hinv. exact (builder_inv_emit _ _ p st Hinv). Qed.

Lemma builder_inv_loop pairs : ∀ i st,
  builder_inv st → builder_inv (span_loop i pairs st).
Proof.
  induction pairs as [|p rest IH]; intros i st Hinv; [done |].
  simpl. apply IH. by apply builder_inv_step.
Qed.

(** What the loop appends: one linked claim and fact record per pair,
    in the order of the pairs and carrying their texts. *)
Lemma span_loop_appends pairs : ∀ i st, ∃ cs fs,
  claims_all (span_loop i pairs st) = claims_all st ++ cs ∧
  facts_all (span_loop i pairs st) = facts_all st ++ fs ∧
  Forall2 linked cs fs ∧
  Forall2 (λ p c, c_text c = claim p) pairs cs ∧
  Forall2 (λ p f, f_text f = fact p) pairs fs.
Proof.
  induction pairs as [|p rest IH]; intros i st.
  - exists [], []. by rewrite !app_nil_r.
  - destruct (IH (S i) (span_step i p st)) as (cs & fs & Hc & Hf & Hl & Hct & Hft).
    simpl. rewrite Hc, Hf. unfold span_step. cbn [claims_all facts_all].
    eexists (_ :: cs), (_ :: fs).
    rewrite <- !app_assoc. repeat split; try done.
    + constructor; [| done]. by split.
    + by constructor.
    + by constructor.
Qed.

End SpanBuilder.

(** The request for one small pair: the text, and the offsets that skip
    the prefixes ["Claim 1: "] and [" Fact 1: "]. *)
Example payload_small :
  factcheck_payload_of [Pair "sky" "blue" 0] =
  FactcheckPayload
    ("Claim 1: sky Fact 1: blue" +:+ String "010" "") "en"
    [ClaimDict 9 12 "sky" [Span 21 25 "blue"]]
    [FactDict 21 25 "blue" [Span 9 12 "sky"]].
Proof. reflexivity. Qed.

(** C1. For every list of claim-fact pairs, every claim record and every
    fact record that the span-building loop of [run_factcheck] puts in the
    request is exact: the slice of the combined text from its [begin]
    (inclusive) to its [end] (exclusive) is its [text]. *)
Theorem spans_exact (claim_fact_pairs : list pair) :
  let payload := factcheck_payload_of claim_fact_pairs in
  Forall (claim_exact (fp_text payload)) (fp_claims_all payload) ∧
  Forall (fact_exact (fp_text payload)) (fp_facts_all payload).
Proof.
  unfold factcheck_payload_of, build_spans. cbn [fp_text fp_claims_all fp_facts_all].
  destruct (builder_inv_loop claim_fact_pairs 0 builder_init builder_inv_init)
    as (_ & Hc & Hf).
  split.
  - eapply Forall_impl; [exact Hc |]. intros c Hex.
    specialize (Hex ""). by rewrite app_empty_r in Hex.
  - eapply Forall_impl; [exact Hf |]. intros f Hex.
    specialize (Hex ""). by rewrite app_empty_r in Hex.
Qed.

(** C5. For every list of claim-fact pairs the request holds one claim
    record and one fact record per pair, in the order of the pairs, and at
    every index the two are cross-linked one to one: the claim record links
    to exactly one fact span, the span of the fact record at that index, and
    that fact record links back to exactly one claim span, the claim
    record's own. *)
Theorem links_bidirectional (claim_fact_pairs : list pair) :
  let payload := factcheck_payload_of claim_fact_pairs in
  Forall2 linked (fp_claims_all payload) (fp_facts_all payload) ∧
  Forall2 (λ p c, c_text c = claim p) claim_fact_pairs (fp_claims_all payload) ∧
  Forall2 (λ p f, f_text f = fact p) claim_fact_pairs (fp_facts_all payload).
Proof.
  unfold factcheck_payload_of, build_spans. cbn [fp_claims_all fp_facts_all].
  destruct (span_loop_appends claim_fact_pairs 0 builder_init)
    as (cs & fs & -> & -> & Hl & Hc & Hf).
  done.
Qed.

(** The index-wise reading of [links_bidirectional]: the records at one
    index are linked, and both exist for every index of the input. *)
Lemma links_at_index (claim_fact_pairs : list pair) (i : nat) (p : pair) :
  claim_fact_pairs !! i = Some p →
  ∃ c f,
    fp_claims_all (factcheck_payload_of claim_fact_pairs) !! i = Some c ∧
    fp_facts_all (factcheck_payload_of claim_fact_pairs) !! i = Some f ∧
    c_text c = claim p ∧ f_text f = fact p ∧
    c_facts c = [fact_span f] ∧ f_claims f = [claim_span c].
Proof.
  intros Hp.
  unfold factcheck_payload_of, build_spans. cbn [fp_claims_all fp_facts_all].
  destruct (span_loop_appends claim_fact_pairs 0 builder_init)
    as (cs & fs & -> & -> & Hl & Hc & Hf). simpl.
  destruct (Forall2_lookup_l _ _ _ _ _ Hc Hp) as (c & Hci & Hct).
  destruct (Forall2_lookup_l _ _ _ _ _ Hf Hp) as (f & Hfi & Hft).
  exists c, f. repeat split; try done.
  - by destruct (Forall2_lookup_lr _ _ _ _ _ _ Hl Hci Hfi).
  - by destruct (Forall2_lookup_lr _ _ _ _ _ _ Hl Hci Hfi).
Qed.

(** ** Floats *)

(** The literals of the source, as binary64 values. *)
Example f_0_1_bits : f_0_1 = S754_finite false 7205759403792794 (-56).
Proof. reflexivity. Qed.
Example f_0_3_bits : f_0_3 = S754_finite false 5404319552844595 (-54).
Proof. reflexivity. Qed.
Example f_0_5_bits : f_0_5 = S754_finite false 4503599627370496 (-53).
Proof. reflexivity. Qed.
Example f_0_7_bits : f_0_7 = S754_finite false 6305039478318694 (-53).
Proof. reflexivity. Qed.
Example f_1_0_bits : f_1_0 = S754_finite false 4503599627370496 (-52).
Proof. reflexivity. Qed.
Example f_1_2_bits : f_1_2 = S754_finite false 5404319552844595 (-52).
Proof. reflexivity. Qed.

Section FloatOrder.

Implicit Types (x y z : float).

(** Swapping the arguments of a comparison reverses its outcome. *)
Lemma SFcompare_swap x y :
  SFcompare y x = option_map CompOpp (SFcompare x y).
Proof.
  destruct x as [sx|sx| |sx mx ex], y as [sy|sy| |sy my ey]; simpl;
    try done; try (by destruct sx); try (by destruct sy);
    try (by destruct sx, sy).
  destruct sx, sy; try done;
    rewrite (Z.compare_antisym ex ey);
    destruct (ex ?= ey)%Z; simpl; try done;
    by rewrite (Pos.compare_cont_antisym mx my Eq).
Qed.

Lemma SFcompare_is_Some x y :
  is_nan x = false → is_nan y = false → is_Some (SFcompare x y).
Proof. destruct x, y; simpl; intros; try done; eauto. Qed.

(** On numbers, [x <= y] is the negation of [y < x]. *)
Lemma fle_not_flt x y :
  is_nan x = false → is_nan y = false → fle x y = negb (flt y x).
Proof.
  intros Hx Hy. unfold fle, flt, SFleb, SFltb.
  rewrite (SFcompare_swap x y).
  destruct (SFcompare_is_Some x y Hx Hy) as [c ->]. by destruct c.
Qed.

Lemma nonneg_not_nan x : nonneg x → is_nan x = false.
Proof. by destruct x as [[]|[]| |[] ? ?]. Qed.

Lemma fle_zero_nonneg x : nonneg x → fle f_0_0 x = true.
Proof. by destruct x as [[]|[]| |[] ? ?]. Qed.

End FloatOrder.

Section Rounding.

(** A property kept by [f] is kept by iterating [f]. *)
Lemma iter_pos_keeps {A : Type} (P : A → Prop) (f : A → A) :
  (∀ a, P a → P (f a)) → ∀ n a, P a → P (SpecFloat.iter_pos f n a).
Proof.
  intros Hf. induction n as [n IH|n IH|]; intros a Ha; simpl; auto.
Qed.

Lemma shr_1_nonneg mrs : (0 ≤ shr_m mrs)%Z → (0 ≤ shr_m (shr_1 mrs))%Z.
Proof.
  destruct mrs as [m r s]; simpl.
  destruct m as [|[p|p|]|[p|p|]]; simpl; lia.
Qed.

Lemma shr_fexp_nonneg m e l :
  (0 ≤ m)%Z → (0 ≤ shr_m (fst (shr_fexp prec emax m e l)))%Z.
Proof.
  intros Hm. unfold shr_fexp, shr.
  assert (H0 : (0 ≤ shr_m (shr_record_of_loc m l))%Z)
    by (by destruct l as [|[]]).
  destruct (fexp prec emax (Zdigits2 m + e) - e)%Z; simpl; try done.
  by apply (iter_pos_keeps (λ r, (0 ≤ shr_m r)%Z)); [apply shr_1_nonneg |].
Qed.

Lemma round_nearest_even_nonneg m l :
  (0 ≤ m)%Z → (0 ≤ round_nearest_even m l)%Z.
Proof.
  intros Hm. destruct l as [|[]]; simpl; try done; [| lia].
  destruct (Z.even m); lia.
Qed.

(** Rounding a non-negative mantissa with sign bit [false] gives a
    non-negative number, never a NaN. *)
Lemma binary_round_aux_nonneg m e l :
  (0 ≤ m)%Z → nonneg (binary_round_aux prec emax false m e l).
Proof.
  intros Hm. unfold binary_round_aux.
  pose proof (shr_fexp_nonneg m e l Hm) as H1.
  destruct (shr_fexp prec emax m e l) as [mrs' e']. simpl in H1.
  pose proof (shr_fexp_nonneg _ e' loc_Exact
    (round_nearest_even_nonneg _ (loc_of_shr_record mrs') H1)) as H2.
  destruct (shr_fexp prec emax _ e' loc_Exact) as [mrs'' e'']. simpl in H2.
  destruct (shr_m mrs'') as [|p|p]; simpl; [done | | lia].
  by destruct (e'' <=? emax - prec)%Z.
Qed.

Lemma binary_round_nonneg m e : nonneg (binary_round prec emax false m e).
Proof.
  unfold binary_round.
  destruct (shl_align m e _) as [mz ez]. by apply binary_round_aux_nonneg.
Qed.

Lemma div_core_nonneg m1 e1 m2 e2 :
  (0 ≤ (SFdiv_core_binary prec emax (Zpos m1) e1 (Zpos m2) e2).1.1)%Z.
Proof.
  unfold SFdiv_core_binary.
  set (s := (e1 - e2 - _)%Z).
  set (m' := match s with Zpos _ => _ | Z0 => _ | Zneg _ => _ end).
  assert (Hm' : (0 ≤ m')%Z).
  { subst m'. destruct s; try lia. apply Z.shiftl_nonneg. lia. }
  pose proof (Z.div_eucl_eq m' (Zpos m2) ltac:(lia)) as Heq.
  pose proof (Z.mod_pos_bound m' (Zpos m2) ltac:(lia)) as Hr.
  unfold Z.modulo in Hr.
  destruct (Z.div_eucl m' (Zpos m2)) as [q r]. simpl. nia.
Qed.

End Rounding.

Section FloatArith.

Implicit Types (x y : float).

Lemma fdiv_nonneg (a b : nat) : b ≠ 0 → nonneg (fdiv (of_int a) (of_int b)).
Proof.
  intros Hb. unfold of_int.
  destruct (N.of_nat b) as [|pb] eqn:Eb; [lia |].
  destruct (N.of_nat a) as [|pa]; [done |].
  unfold fdiv, SFdiv.
  pose proof (div_core_nonneg pa 0 pb 0) as Hq.
  destruct (SFdiv_core_binary prec emax (Zpos pa) 0 (Zpos pb) 0)
    as [[mz ez] lz]. simpl in Hq.
  by apply binary_round_aux_nonneg.
Qed.

Lemma fmul_nonneg_finite x m e :
  nonneg x → nonneg (fmul x (S754_finite false m e)).
Proof.
  destruct x as [[]|[]| |[] mx ex]; simpl; try done.
  intros _. by apply (binary_round_aux_nonneg (Zpos (mx * m))).
Qed.

Lemma fadd_nonneg_finite x m e :
  nonneg x → nonneg (fadd x (S754_finite false m e)).
Proof.
  destruct x as [[]|[]| |[] mx ex]; simpl; try done.
  intros _. unfold binary_normalize. simpl.
  apply binary_round_nonneg.
Qed.

Lemma div_eucl_div_mod (a b : Z) : Z.div_eucl a b = ((a / b)%Z, (a mod b)%Z).
Proof. unfold Z.div, Z.modulo. by destruct (Z.div_eucl a b). Qed.

Lemma new_location_zero (n : Z) : new_location n 0 = loc_Exact.
Proof. unfold new_location. by destruct (Z.even n). Qed.

(** A positive integer divided by itself is exactly [1.0]. *)
Lemma fdiv_self (p : positive) :
  fdiv (S754_finite false p 0) (S754_finite false p 0) = f_1_0.
Proof.
  unfold fdiv, SFdiv.
  assert (Hcore : SFdiv_core_binary prec emax (Zpos p) 0 (Zpos p) 0 =
                  ((2 ^ 53)%Z, (-53)%Z, loc_Exact)).
  { unfold SFdiv_core_binary.
    replace (Zdigits2 (Zpos p) + 0 - (Zdigits2 (Zpos p) + 0))%Z with 0%Z
      by lia.
    change (Z.min (fexp prec emax 0) (0 - 0)) with (-53)%Z.
    change (0 - 0 - -53)%Z with 53%Z. cbv beta iota zeta.
    rewrite Z.shiftl_mul_pow2 by lia.
    rewrite div_eucl_div_mod, Z.mul_comm.
    rewrite Z.div_mul, Z.mod_mul by lia.
    by rewrite new_location_zero. }
  rewrite Hcore. reflexivity.
Qed.

Lemma truediv_self (n : nat) : n ≠ 0 → truediv n n = Ok f_1_0.
Proof.
  intros Hn. unfold truediv.
  destruct (Nat.eqb_spec n 0) as [|_]; [done |].
  unfold of_int. destruct (N.of_nat n) as [|p] eqn:E; [lia |].
  by rewrite fdiv_self.
Qed.

End FloatArith.

(** ** The fallback scorer *)

Section FallbackScorer.

Implicit Types (p : pair) (A B : gset string).

(** The guard of the loop body is the emptiness of the union. *)
Lemma size_zero_empty A : Nat.eqb (size A) 0 = bool_decide (A = ∅).
Proof.
  destruct (Nat.eqb_spec (size A) 0) as [H|H].
  - apply size_empty_iff in H. apply leibniz_equiv in H.
    by rewrite bool_decide_eq_true_2.
  - rewrite bool_decide_eq_false_2; [done |]. intros ->. by apply H.
Qed.

(** The loop body never raises and computes the specified score. *)
Lemma demo_score_ok p : demo_score p = Ok (fallback_score (claim p) (fact p)).
Proof.
  unfold demo_score, fallback_score, jaccard_score.
  rewrite size_zero_empty.
  destruct (decide (words (claim p) ∪ words (fact p) = ∅)) as [He|Hne].
  - by rewrite bool_decide_eq_true_2.
  - rewrite bool_decide_eq_false_2 by done.
    unfold truediv.
    destruct (Nat.eqb_spec (size (words (claim p) ∪ words (fact p))) 0)
      as [H0|_]; [| done].
    apply size_empty_iff in H0. apply leibniz_equiv in H0. done.
Qed.

Lemma demo_loop_ok pairs : ∀ scores,
  demo_loop pairs scores =
  Ok (scores ++ map (λ p, fallback_score (claim p) (fact p)) pairs).
Proof.
  induction pairs as [|p rest IH]; intros scores; simpl.
  - by rewrite app_nil_r.
  - rewrite demo_score_ok. simpl. rewrite IH. by rewrite <- app_assoc.
Qed.

Lemma generate_demo_scores_ok pairs :
  generate_demo_scores pairs = Ok (fallback_scores pairs).
Proof. unfold generate_demo_scores. by rewrite demo_loop_ok. Qed.

Lemma py_min_one_range (x : float) :
  nonneg x → in_unit_interval (py_min x f_1_0).
Proof.
  intros Hx. unfold py_min, in_unit_interval.
  destruct (flt f_1_0 x) eqn:Hlt; [done |]. split.
  - by apply fle_zero_nonneg.
  - rewrite fle_not_flt; [by rewrite Hlt | by apply nonneg_not_nan | done].
Qed.

Lemma jaccard_score_range A B : in_unit_interval (jaccard_score A B).
Proof.
  unfold jaccard_score.
  destruct (decide (A ∪ B = ∅)) as [He|Hne]; [done |].
  apply py_min_one_range.
  apply fadd_nonneg_finite, fmul_nonneg_finite, fdiv_nonneg.
  intros H0. apply Hne. apply leibniz_equiv. by apply size_empty_iff.
Qed.

End FallbackScorer.

(** C2. For every list of pairs [generate_demo_scores] returns, without
    raising, one score per pair, and the score of a pair is a function of
    its claim and fact alone (identical inputs, identical score): lower-case
    both, split on whitespace into token sets; 0.0 if the union of the sets
    is empty, and otherwise min(jaccard * 1.2 + 0.1, 1.0) with jaccard the
    size of the intersection over the size of the union.  Every such score
    lies in [0, 1], bounds included. *)
Theorem generate_demo_scores_spec (pairs : list pair) :
  generate_demo_scores pairs =
    Ok (map (λ p, fallback_score (claim p) (fact p)) pairs) ∧
  (∀ claim_text fact_text : string,
     fallback_score claim_text fact_text =
       (if decide (words claim_text ∪ words fact_text = ∅) then f_0_0
        else py_min
               (fadd (fmul (fdiv (of_int (size (words claim_text ∩ words fact_text)))
                                 (of_int (size (words claim_text ∪ words fact_text))))
                           f_1_2) f_0_1) f_1_0) ∧
     in_unit_interval (fallback_score claim_text fact_text)).
Proof.
  split.
  - apply generate_demo_scores_ok.
  - intros c f. split; [done |]. apply jaccard_score_range.
Qed.

(** ** The first fixture pair *)

(** The token sets of the Paris pair: 5 and 8 tokens, 4 shared, 9 in all. *)
Example paris_tokens :
  split (lower "Paris is capital of France") =
    ["paris"; "is"; "capital"; "of"; "france"] ∧
  split (lower "Paris serves as the capital city of France") =
    ["paris"; "serves"; "as"; "the"; "capital"; "city"; "of"; "france"] ∧
  size (words "Paris is capital of France" ∩
        words "Paris serves as the capital city of France") = 4 ∧
  size (words "Paris is capital of France" ∪
        words "Paris serves as the capital city of France") = 9.
Proof. repeat split; vm_compute; reflexivity. Qed.

(** Its fallback score is the float nearest below 0.6333...,
    0x1.4444444444444p-1. *)
Example paris_score :
  fallback_score "Paris is capital of France"
                 "Paris serves as the capital city of France" =
  S754_finite false 5704559528002628 (-53).
Proof. vm_compute. reflexivity. Qed.

Example paris_pair_is_first : FACT_CHECK_PAIRS !! 0 = Some paris_pair.
Proof. reflexivity. Qed.

(** C4, as stated, fails: the fallback score of the Paris pair is
    0x1.4444444444444p-1, about 0.6333, which does not exceed 0.7, and the
    report does not classify the pair as SUPPORTED. *)
Lemma paris_not_supported :
  generate_demo_scores [paris_pair] =
    Ok [S754_finite false 5704559528002628 (-53)] ∧
  flt f_0_7 (S754_finite false 5704559528002628 (-53)) = false ∧
  support_status (S754_finite false 5704559528002628 (-53)) ≠ SUPPORTED.
Proof.
  split; [vm_compute; reflexivity | split; [reflexivity | done]].
Qed.

(** C4, amended.  For the pair with claim "Paris is capital of France" and
    fact "Paris serves as the capital city of France", 4 of the 9 tokens
    are shared and the fallback score is min(4/9 * 1.2 + 0.1, 1.0), about
    0.6333: above 0.5 and not above 0.7, so the report classifies the pair
    as PARTIALLY SUPPORTED. *)
Theorem paris_partially_supported :
  ∃ score,
    generate_demo_scores [paris_pair] = Ok [score] ∧
    score = py_min (fadd (fmul (fdiv (of_int 4) (of_int 9)) f_1_2) f_0_1) f_1_0 ∧
    flt f_0_5 score = true ∧ fle score f_0_7 = true ∧
    support_status score = PARTIALLY_SUPPORTED.
Proof.
  exists (S754_finite false 5704559528002628 (-53)).
  repeat split; vm_compute; reflexivity.
Qed.

(** ** Identical claim and fact *)

Section SameText.

Implicit Types (s w : string) (c : ascii).

Lemma isspace_lower_char c : isspace (lower_char c) = isspace c.
Proof. destruct c as [[] [] [] [] [] [] [] []]; reflexivity. Qed.

Lemma blank_lower s : blank (lower s) = blank s.
Proof.
  induction s as [|c r IH]; [done |]. simpl.
  by rewrite isspace_lower_char, IH.
Qed.

(** Once a word is being read, [split] returns at least that word. *)
Lemma split_from_word s : ∀ w, split_from (Some w) s ≠ [].
Proof.
  induction s as [|c r IH]; intros w; simpl; [done |].
  destruct (isspace c); [done | apply IH].
Qed.

Lemma split_blank s : blank s = true → split s = [].
Proof.
  unfold split. induction s as [|c r IH]; [done |]. simpl.
  destruct (isspace c); [simpl; auto | done].
Qed.

Lemma split_not_blank s : blank s = false → split s ≠ [].
Proof.
  unfold split. induction s as [|c r IH]; [done |]. simpl.
  destruct (isspace c); simpl; [auto | intros _; apply split_from_word].
Qed.

Lemma words_blank s : blank s = true → words s = ∅.
Proof.
  intros Hb. unfold words. rewrite split_blank; [done |].
  by rewrite blank_lower.
Qed.

Lemma words_not_blank s : blank s = false → words s ≠ ∅.
Proof.
  intros Hb. unfold words.
  pose proof (split_not_blank (lower s)) as Hs.
  rewrite blank_lower in Hs. specialize (Hs Hb).
  destruct (split (lower s)) as [|w l]; [done |].
  simpl. set_solver.
Qed.

(** The score of a text against itself: 1.0 when it has a token. *)
Lemma fallback_score_same s :
  blank s = false → fallback_score s s = f_1_0.
Proof.
  intros Hb. apply words_not_blank in Hb.
  unfold fallback_score, jaccard_score.
  assert (Hu : words s ∪ words s = words s) by apply (idemp_L (∪)).
  assert (Hi : words s ∩ words s = words s) by apply (idemp_L (∩)).
  rewrite Hu, Hi.
  destruct (decide (words s = ∅)) as [|_]; [done |].
  assert (Hn : size (words s) ≠ 0).
  { intros H0. apply Hb. apply leibniz_equiv. by apply size_empty_iff. }
  pose proof (truediv_self _ Hn) as Hd. unfold truediv in Hd.
  destruct (Nat.eqb_spec (size (words s)) 0); [done |].
  injection Hd as ->. reflexivity.
Qed.

(** ... and 0.0 when it has none. *)
Lemma fallback_score_blank s : blank s = true → fallback_score s s = f_0_0.
Proof.
  intros Hb. unfold fallback_score, jaccard_score.
  rewrite (words_blank s Hb).
  destruct (decide (∅ ∪ ∅ = (∅ : gset string))) as [|Hne]; [done |].
  exfalso. apply Hne. set_solver.
Qed.

End SameText.

(** C7, as stated, fails: the string of one space is not empty, yet it has
    no token, and [generate_demo_scores] gives the pair of it with itself
    the score 0.0, not 1.0. *)
Lemma space_pair_scores_zero :
  " " ≠ "" ∧
  generate_demo_scores [Pair " " " " 0] = Ok [f_0_0] ∧
  f_0_0 ≠ f_1_0.
Proof. repeat split; try done. Qed.

(** C7, amended.  For every string [s] with at least one character that is
    not whitespace, [generate_demo_scores] applied to the pair of [s] with
    itself yields exactly 1.0, the greatest score there is. *)
Theorem same_text_scores_one (s : string) (i : nat) :
  blank s = false →
  generate_demo_scores [Pair s s i] = Ok [f_1_0].
Proof.
  intros Hb.
  rewrite generate_demo_scores_ok. unfold fallback_scores. simpl.
  by rewrite fallback_score_same.
Qed.

Lemma same_text_scores_one_witness :
  blank "Water boils" = false ∧
  generate_demo_scores [Pair "Water boils" "Water boils" 1] = Ok [f_1_0].
Proof.
  split; [reflexivity |].
  apply (same_text_scores_one "Water boils" 1). reflexivity.
Defined.

(** ** The order of the floats, through their positions *)

Section FloatKey.

Implicit Types (x y : float) (a b : Z * Z * Z).

Lemma SFcompare_key x y :
  is_nan x = false → is_nan y = false →
  SFcompare x y = Some (key_compare (key x) (key y)).
Proof.
  destruct x as [sx|[]| |[] mx ex], y as [sy|[]| |[] my ey];
    try done; intros _ _; unfold key_compare; simpl.
  rewrite Z.compare_opp, (Z.compare_antisym ex ey).
  by destruct (ex ?= ey)%Z.
Qed.

Lemma key_compare_Lt a b : key_compare a b = Lt ↔ key_lt a b.
Proof.
  unfold key_compare, key_lt.
  destruct (Z.compare_spec a.1.1 b.1.1), (Z.compare_spec a.1.2 b.1.2),
    (Z.compare_spec a.2 b.2); split; intros; try done; lia.
Qed.

Lemma key_compare_Eq a b : key_compare a b = Eq ↔ key_eq a b.
Proof.
  unfold key_compare, key_eq.
  destruct (Z.compare_spec a.1.1 b.1.1), (Z.compare_spec a.1.2 b.1.2),
    (Z.compare_spec a.2 b.2); split; intros; try done; lia.
Qed.

Lemma flt_key x y :
  is_nan x = false → is_nan y = false →
  flt x y = true ↔ key_lt (key x) (key y).
Proof.
  intros Hx Hy. unfold flt, SFltb. rewrite (SFcompare_key x y Hx Hy).
  rewrite <- key_compare_Lt. by destruct (key_compare (key x) (key y)).
Qed.

Lemma flt_key_false x y :
  is_nan x = false → is_nan y = false →
  flt x y = false ↔ ¬ key_lt (key x) (key y).
Proof.
  intros Hx Hy. rewrite <- (flt_key x y Hx Hy). by destruct (flt x y).
Qed.

Lemma feq_key x y :
  is_nan x = false → is_nan y = false →
  feq x y = true ↔ key_eq (key x) (key y).
Proof.
  intros Hx Hy. unfold feq, SFeqb. rewrite (SFcompare_key x y Hx Hy).
  rewrite <- key_compare_Eq. by destruct (key_compare (key x) (key y)).
Qed.

Lemma feq_key_false x y :
  is_nan x = false → is_nan y = false →
  feq x y = false ↔ ¬ key_eq (key x) (key y).
Proof.
  intros Hx Hy. rewrite <- (feq_key x y Hx Hy). by destruct (feq x y).
Qed.

Lemma fle_key x y :
  is_nan x = false → is_nan y = false →
  fle x y = true ↔ ¬ key_lt (key y) (key x).
Proof.
  intros Hx Hy. rewrite (fle_not_flt x y Hx Hy).
  rewrite <- (flt_key_false y x Hy Hx). by destruct (flt y x).
Qed.

End FloatKey.

(** ** The classifications of the report *)

(** C6. For every consistency score [s] that is a number, the support tier
    of the report is SUPPORTED iff s > 0.7, PARTIALLY SUPPORTED iff
    0.5 < s <= 0.7, WEAKLY SUPPORTED iff 0.3 < s <= 0.5 and CONTRADICTED iff
    s <= 0.3; the boundary value 0.7 itself is PARTIALLY SUPPORTED. *)
Theorem support_status_spec (s : float) :
  is_nan s = false →
  (support_status s = SUPPORTED ↔ flt f_0_7 s = true) ∧
  (support_status s = PARTIALLY_SUPPORTED ↔
     flt f_0_5 s = true ∧ fle s f_0_7 = true) ∧
  (support_status s = WEAKLY_SUPPORTED ↔
     flt f_0_3 s = true ∧ fle s f_0_5 = true) ∧
  (support_status s = CONTRADICTED ↔ fle s f_0_3 = true) ∧
  support_status f_0_7 = PARTIALLY_SUPPORTED.
Proof.
  intros Hs. unfold support_status.
  rewrite !(fle_key s) by done.
  pose proof (flt_key f_0_7 s eq_refl Hs) as H7.
  pose proof (flt_key f_0_5 s eq_refl Hs) as H5.
  pose proof (flt_key f_0_3 s eq_refl Hs) as H3.
  destruct (flt f_0_7 s), (flt f_0_5 s), (flt f_0_3 s);
    unfold key_lt, f_0_7, f_0_5, f_0_3 in *; simpl in *;
    destruct (key s) as [[k1 k2] k3]; simpl in *;
    repeat split; try discriminate; try reflexivity; intros;
    try (exfalso; intuition (try discriminate; lia));
    intuition (try discriminate; try lia).
Qed.

Lemma support_status_spec_witness :
  is_nan (literal 70000001 100000000) = false ∧
  (support_status (literal 70000001 100000000) = SUPPORTED ↔
   flt f_0_7 (literal 70000001 100000000) = true).
Proof.
  split; [reflexivity |].
  exact (proj1 (support_status_spec (literal 70000001 100000000) eq_refl)).
Defined.

(** The boundary of the specification's scenario: 0.7 is PARTIALLY
    SUPPORTED and 0.70000001 is SUPPORTED. *)
Example support_status_boundary :
  support_status f_0_7 = PARTIALLY_SUPPORTED ∧
  support_status (literal 70000001 100000000) = SUPPORTED.
Proof. split; reflexivity. Qed.

(** A NaN is no number: every comparison with it is false, so it falls
    through to the last branch. *)
Remark support_status_nan :
  support_status S754_nan = CONTRADICTED ∧ fle S754_nan f_0_3 = false.
Proof. split; reflexivity. Qed.

(** Turns the outcome of a comparison of two numbers into a statement on
    their positions. *)
Ltac order_hyp H :=
  first
    [ apply flt_key in H; [| assumption | assumption]
    | apply flt_key_false in H; [| assumption | assumption]
    | apply feq_key in H; [| assumption | assumption]
    | apply feq_key_false in H; [| assumption | assumption] ].

(** Closes a goal on three numbers once every comparison is a statement on
    positions: linear arithmetic on the components. *)
Ltac order_close p n g :=
  unfold key_lt, key_eq in *;
  destruct (key p) as [[? ?] ?], (key n) as [[? ?] ?], (key g) as [[? ?] ?];
  simpl in *; repeat split; try discriminate; intros; try lia.

(** C8. For every triple of sentiment scores that are numbers, the label
    of the report is the argmax of the three with ties broken in the order
    negative, positive, neutral: NEGATIVE exactly when the negative score is
    a greatest one, otherwise POSITIVE exactly when the positive score is a
    greatest one, otherwise NEUTRAL, and then the neutral score is the
    greatest. *)
Theorem sentiment_of_spec (p n g : float) :
  is_nan p = false → is_nan n = false → is_nan g = false →
  (sentiment_of p n g = NEGATIVE ↔ is_max g p n g) ∧
  (sentiment_of p n g = POSITIVE ↔ ¬ is_max g p n g ∧ is_max p p n g) ∧
  (sentiment_of p n g = NEUTRAL ↔ ¬ is_max g p n g ∧ ¬ is_max p p n g) ∧
  (sentiment_of p n g = NEUTRAL → is_max n p n g).
Proof.
  intros Hp Hn Hg. unfold sentiment_of, py_max3, is_max.
  rewrite !(fle_key p), !(fle_key n), !(fle_key g) by done.
  destruct (flt p n) eqn:E1; order_hyp E1.
  - destruct (flt n g) eqn:E2; order_hyp E2.
    + destruct (feq g g) eqn:E3; order_hyp E3;
        destruct (feq g p) eqn:E4; order_hyp E4; order_close p n g.
    + destruct (feq n g) eqn:E3; order_hyp E3;
        destruct (feq n p) eqn:E4; order_hyp E4; order_close p n g.
  - destruct (flt p g) eqn:E2; order_hyp E2.
    + destruct (feq g g) eqn:E3; order_hyp E3;
        destruct (feq g p) eqn:E4; order_hyp E4; order_close p n g.
    + destruct (feq p g) eqn:E3; order_hyp E3;
        destruct (feq p p) eqn:E4; order_hyp E4; order_close p n g.
Qed.

(** ** The report renderer *)

Section Renderer.

Implicit Types (m k : M unit) (its : list item) (st : state).

Lemma prints_ret : prints (mret tt) [].
Proof. intros [l c]. unfold mret, M_ret. simpl. by rewrite app_nil_r. Qed.

Lemma prints_print it : prints (print it) [it].
Proof. by intros st. Qed.

Lemma prints_seq m k its1 its2 :
  prints m its1 → prints k its2 → prints (m;; k) (its1 ++ its2).
Proof.
  intros Hm Hk st. unfold mbind, M_bind. rewrite Hm, Hk. simpl.
  by rewrite app_assoc.
Qed.

Lemma prints_for_each {A : Type} (l : list A) (body : A → M unit)
    (f : A → list item) :
  (∀ x, x ∈ l → prints (body x) (f x)) →
  prints (for_each l body) (concat (map f l)).
Proof.
  induction l as [|x l IH]; intros Hbody; simpl; [apply prints_ret |].
  apply prints_seq; [apply Hbody; left |].
  apply IH. intros y Hy. apply Hbody. by right.
Qed.

Lemma prints_for_enumerate {A : Type} (l : list A)
    (body : nat → A → M unit) (f : nat → A → item) : ∀ i,
  (∀ j x, l !! j = Some x → prints (body (i + j) x) [f (i + j) x]) →
  prints (for_enumerate i l body) (imap (λ j, f (i + j)) l).
Proof.
  induction l as [|x l IH]; intros i Hbody; simpl; [apply prints_ret |].
  apply (prints_seq _ _ [_]).
  - rewrite Nat.add_0_r. specialize (Hbody 0 x eq_refl).
    by rewrite Nat.add_0_r in Hbody.
  - assert (Heq : imap ((λ j, f (i + j)) ∘ S) l = imap (λ j, f (S i + j)) l).
    { apply imap_ext. intros j y _. simpl. f_equal. lia. }
    rewrite Heq. apply IH. intros j y Hj.
    replace (S i + j) with (i + S j) by lia. by apply Hbody.
Qed.

(** The renderer of the sentiment section prints [sentiment_items]. *)
Lemma display_sentiment_prints (r : sentiment_result) (text : string) :
  prints (display_sentiment r text) (sentiment_items r text).
Proof.
  unfold display_sentiment, sentiment_items.
  apply (prints_seq _ _ [_]); [apply prints_print |].
  apply (prints_seq _ _ [_]); [apply prints_print |].
  destruct (sentiment_truthy r && list_truthy (default [] (selections r)));
    [| apply prints_print].
  apply (prints_seq _ _ [_]); [apply prints_print |].
  apply prints_for_each. intros selection _.
  apply prints_for_each. intros sentence _.
  unfold sentence_items.
  destruct (pos sentence); [apply prints_print | apply prints_ret].
Qed.

(** Reading the non-hate score at index [i] never raises. *)
Lemma hate_body_prints (r : hatecheck_result) (i : nat) (hate_score : float) :
  prints
    (non_hate_score ←
       (if Nat.ltb i (length (default [] (non_hate r)))
        then lift (index (default [f_0_0] (non_hate r)) i)
        else mret f_0_0);
     print (HateScores hate_score non_hate_score (flt f_0_5 hate_score)))
    [hate_entry r i hate_score].
Proof.
  intros st. unfold hate_entry, mbind, M_bind.
  destruct (non_hate r) as [l|]; simpl.
  - destruct (Nat.ltb_spec i (length l)) as [Hlt|Hge].
    + destruct (lookup_lt_is_Some_2 l i Hlt) as [x Hx].
      unfold lift, index. by rewrite Hx.
    + by rewrite (lookup_ge_None_2 l i Hge).
  - done.
Qed.

Lemma display_hatecheck_prints (r : hatecheck_result) (text : string) :
  prints (display_hatecheck r text) (hate_items r text).
Proof.
  unfold display_hatecheck, hate_items.
  apply (prints_seq _ _ [_]); [apply prints_print |].
  apply (prints_seq _ _ [_]); [apply prints_print |].
  destruct (hatecheck_truthy r); [| apply prints_print].
  apply (prints_seq _ _ [_]); [apply prints_print |].
  destruct (list_truthy (default [] (hate r))); [| apply prints_print].
  unfold hate_entries.
  apply (prints_for_enumerate _ _ (hate_entry r) 0).
  intros j x _. apply hate_body_prints.
Qed.

(** The loop over [range(min(len(consistency), len(pairs)))], started at
    index [length done_pairs]: both reads are within bounds. *)
Lemma fact_loop_prints (todo_pairs : list pair) :
  ∀ (todo_scores : list float) (done_pairs : list pair)
    (done_scores : list float),
  length done_pairs = length done_scores →
  prints
    (for_each
       (seq (length done_pairs)
            (Nat.min (length todo_scores) (length todo_pairs)))
       (λ i,
          p ← lift (index (done_pairs ++ todo_pairs) i);
          score ← lift (index (done_scores ++ todo_scores) i);
          print (FactEntry (i + 1) (claim p) (fact p) score
                   (support_status score))))
    (imap (λ j ps, FactEntry (length done_pairs + j + 1) (claim ps.1)
                     (fact ps.1) ps.2 (support_status ps.2))
          (zip todo_pairs todo_scores)).
Proof.
  induction todo_pairs as [|p todo_pairs IH];
    intros todo_scores done_pairs done_scores Hlen.
  { rewrite Nat.min_0_r. apply prints_ret. }
  destruct todo_scores as [|s todo_scores]; [apply prints_ret |].
  simpl. apply (prints_seq _ _ [_]).
  - intros st. unfold mbind, M_bind, lift, index.
    rewrite (list_lookup_middle done_pairs todo_pairs p _ eq_refl).
    rewrite (list_lookup_middle done_scores todo_scores s _ Hlen).
    by rewrite Nat.add_0_r.
  - specialize (IH todo_scores (done_pairs ++ [p]) (done_scores ++ [s])).
    rewrite !length_app in IH. simpl in IH.
    rewrite <- !app_assoc in IH. simpl in IH.
    rewrite Nat.add_1_r in IH.
    assert (Heq :
      imap ((λ j ps, FactEntry (length done_pairs + j + 1) (claim ps.1)
                       (fact ps.1) ps.2 (support_status ps.2)) ∘ S)
           (zip todo_pairs todo_scores) =
      imap (λ j ps, FactEntry (S (length done_pairs) + j + 1) (claim ps.1)
                      (fact ps.1) ps.2 (support_status ps.2))
           (zip todo_pairs todo_scores)).
    { apply imap_ext. intros j ps _. simpl. f_equal. lia. }
    rewrite Heq. apply IH. lia.
Qed.

Lemma display_factcheck_prints (r : factcheck_result) (pairs : list pair) :
  prints (display_factcheck r pairs) (fact_items r pairs).
Proof.
  unfold display_factcheck, fact_items.
  apply (prints_seq _ _ [_]); [apply prints_print |].
  destruct (factcheck_truthy r); [| apply prints_print].
  cbv zeta.
  destruct (default [] (consistency r)) as [|s scores] eqn:Hs;
    [apply prints_print |].
  rewrite <- Hs.
  replace (list_truthy (default [] (consistency r)) &&
           Nat.ltb 0 (length (default [] (consistency r)))) with true
    by (by rewrite Hs).
  replace (list_truthy (default [] (consistency r))) with true
    by (by rewrite Hs).
  apply (prints_seq _ _ [_]).
  { destruct (default false (is_demo r)); apply prints_print. }
  apply (prints_seq _ _ [_]); [apply prints_print |].
  apply (fact_loop_prints pairs (default [] (consistency r)) [] [] eq_refl).
Qed.

(** [display_results] never raises and prints [report]. *)
Lemma display_results_prints sr hr fr (pairs : list pair) (text : string) :
  prints (display_results sr hr fr pairs text) (report sr hr fr pairs text).
Proof.
  unfold display_results, report.
  apply (prints_seq _ _ [_]); [apply prints_print |].
  apply prints_seq; [apply display_sentiment_prints |].
  apply prints_seq; [apply display_hatecheck_prints |].
  apply display_factcheck_prints.
Qed.

End Renderer.

Section ReportEntries.

Implicit Types (its : list item) (f : item → bool).

Lemma filter_none f its :
  Forall (λ it, f it = false) its → List.filter f its = [].
Proof.
  induction 1 as [|it its Hit _ IH]; [done |]. simpl. by rewrite Hit.
Qed.

Lemma filter_all f its :
  Forall (λ it, f it = true) its → List.filter f its = its.
Proof.
  induction 1 as [|it its Hit _ IH]; [done |]. simpl. by rewrite Hit, IH.
Qed.

Lemma Forall_imap_item {A : Type} (P : item → Prop) (g : nat → A → item)
    (l : list A) :
  (∀ i x, P (g i x)) → Forall P (imap g l).
Proof.
  revert g. induction l as [|x l IH]; intros g Hg; simpl; constructor.
  - apply Hg.
  - apply IH. intros i y. apply Hg.
Qed.

Lemma Forall_concat_map {A : Type} (P : item → Prop) (g : A → list item)
    (l : list A) :
  (∀ x, Forall P (g x)) → Forall P (concat (map g l)).
Proof.
  intros Hg. induction l as [|x l IH]; simpl; [constructor |].
  apply Forall_app. by split.
Qed.

(** The sentiment section has neither hate nor fact-check entries. *)
Lemma sentiment_items_other f (r : sentiment_result) (text : string) :
  (∀ a b c d, f (SentimentScores a b c d) = false) →
  (∀ a b, f (SentimentModel a b) = false) →
  (∀ a, f (Heading a) = false) → (∀ a, f (InputText a) = false) →
  f NoOutput = false →
  List.filter f (sentiment_items r text) = [].
Proof.
  intros Hs Hm Hh Hi Hn. apply filter_none. unfold sentiment_items.
  repeat (constructor; [done |]).
  destruct (_ && _); [| by repeat constructor].
  constructor; [done |].
  apply Forall_concat_map. intros selection.
  apply Forall_concat_map. intros sentence. unfold sentence_items.
  destruct (pos sentence); by repeat constructor.
Qed.

Lemma hate_truthy_false (r : hatecheck_result) :
  hatecheck_truthy r = false → hate r = None.
Proof.
  unfold hatecheck_truthy. destruct (hate r); [| done].
  rewrite bool_decide_eq_true_2 by eauto. done.
Qed.

Lemma hate_items_hate (r : hatecheck_result) (text : string) :
  List.filter is_hate_scores (hate_items r text) = hate_entries r.
Proof.
  unfold hate_items. simpl.
  destruct (hatecheck_truthy r) eqn:Ht; simpl.
  - destruct (default [] (hate r)) as [|h l] eqn:Hl.
    + unfold hate_entries. by rewrite Hl.
    + simpl list_truthy. cbv iota. apply filter_all.
      apply Forall_imap_item. done.
  - unfold hate_entries. by rewrite (hate_truthy_false r Ht).
Qed.

Lemma hate_items_fact (r : hatecheck_result) (text : string) :
  List.filter is_fact_entry (hate_items r text) = [].
Proof.
  apply filter_none. unfold hate_items.
  repeat (constructor; [done |]).
  destruct (hatecheck_truthy r); [| by repeat constructor].
  constructor; [done |].
  destruct (list_truthy _); [| by repeat constructor].
  apply Forall_imap_item. done.
Qed.

Lemma fact_truthy_false (r : factcheck_result) :
  factcheck_truthy r = false → consistency r = None.
Proof.
  unfold factcheck_truthy. destruct (consistency r); [| done].
  rewrite bool_decide_eq_true_2 by eauto. done.
Qed.

Lemma fact_items_hate (r : factcheck_result) (pairs : list pair) :
  List.filter is_hate_scores (fact_items r pairs) = [].
Proof.
  apply filter_none. unfold fact_items.
  constructor; [done |].
  destruct (factcheck_truthy r); [| by repeat constructor].
  cbv zeta. destruct (list_truthy _); [| by repeat constructor].
  constructor; [by destruct (default false (is_demo r)) |].
  constructor; [done |].
  apply Forall_imap_item. done.
Qed.

Lemma fact_items_fact (r : factcheck_result) (pairs : list pair) :
  length (List.filter is_fact_entry (fact_items r pairs)) =
  Nat.min (length (default [] (consistency r))) (length pairs).
Proof.
  unfold fact_items. simpl.
  destruct (factcheck_truthy r) eqn:Ht; simpl.
  - destruct (default [] (consistency r)) as [|s l] eqn:Hl; [done |].
    simpl list_truthy. cbv iota zeta.
    replace (List.filter is_fact_entry _) with (fact_entries (s :: l) pairs).
    + unfold fact_entries. rewrite length_imap, length_zip. lia.
    + destruct (default false (is_demo r)); simpl;
        symmetry; apply filter_all; apply Forall_imap_item; done.
  - by rewrite (fact_truthy_false r Ht).
Qed.

End ReportEntries.

(** C10. The report renderer never reads out of bounds, whatever the
    lengths of the lists: for every result of the three stages and every
    pair list it returns without raising, having printed [report]; the
    fact-check entries it renders number exactly the smaller of the length
    of the consistency list and the length of the pair list; and the entry
    of the hate score at index i shows the non-hate score at index i when
    the non-hate list has one, and 0 otherwise. *)
Theorem display_results_within_bounds (sr : sentiment_result)
    (hr : hatecheck_result) (fr : factcheck_result)
    (claim_fact_pairs : list pair) (test_text : string) (st : state) :
  display_results sr hr fr claim_fact_pairs test_text st =
    (Ok tt, State (http_log st)
              (console st ++ report sr hr fr claim_fact_pairs test_text)) ∧
  length (List.filter is_fact_entry
            (report sr hr fr claim_fact_pairs test_text)) =
    Nat.min (length (default [] (consistency fr))) (length claim_fact_pairs) ∧
  List.filter is_hate_scores (report sr hr fr claim_fact_pairs test_text) =
    imap (λ i hate_score,
            HateScores hate_score
              (default f_0_0 (default [] (non_hate hr) !! i))
              (flt f_0_5 hate_score))
         (default [] (hate hr)).
Proof.
  split; [apply display_results_prints |].
  unfold report.
  change (Heading "PIPELINE RESULTS" :: ?l) with ([Heading "PIPELINE RESULTS"] ++ l).
  rewrite !List.filter_app.
  rewrite (sentiment_items_other is_fact_entry) by done.
  rewrite (sentiment_items_other is_hate_scores) by done.
  rewrite hate_items_fact, hate_items_hate, fact_items_hate.
  rewrite app_nil_r.
  change (List.filter is_fact_entry [Heading "PIPELINE RESULTS"]) with (@nil item).
  change (List.filter is_hate_scores [Heading "PIPELINE RESULTS"]) with (@nil item).
  split; [apply fact_items_fact | done].
Qed.

(** ** The fact-checking stage *)

Section FactcheckStage.

Variable w : world.
Implicit Types (pairs : list pair) (st : state).

(** [run_factcheck] on a non-empty pair list, in closed form: one call,
    and a result that depends on the reply alone. *)
Lemma run_factcheck_eq pairs st :
  pairs ≠ [] →
  run_factcheck w pairs st =
  (Ok match factcheck_reply w pairs with
      | Received resp =>
          if (status_code resp =? 200)%Z then
            match body resp with
            | Some result =>
                match default [] (consistency result) with
                | [] => demo_result (fallback_scores pairs)
                | _ :: _ => result
                end
            | None => factcheck_empty
            end
          else factcheck_empty
      | TimedOut => demo_result_timed_out (fallback_scores pairs)
      | Failed => factcheck_empty
      end,
   after_call (POST factcheck_url) st).
Proof.
  intros Hne. destruct pairs as [|p ps]; [done |].
  unfold run_factcheck, try_except, requests_post_factcheck, factcheck_reply.
  unfold mbind, M_bind, log_call, lift, after_call, json.
  fold factcheck_url.
  rewrite !generate_demo_scores_ok.
  destruct (post_factcheck w factcheck_url _ 300) as [[status b]| |];
    simpl; try done.
  destruct (status =? 200)%Z; [| done].
  destruct b as [result|]; simpl; [| done].
  by destruct (default [] (consistency result)).
Qed.

End FactcheckStage.

(** C3. The result of [run_factcheck] on a non-empty pair list is
    classified by the reply to its one call.  HTTP 200 with a non-empty
    consistency list: the service's result itself, and its [is_demo] reads
    false (the service sends no such key).  HTTP 200 with an empty or absent
    consistency list: the fallback scores, one per pair, with [is_demo] true
    and [timed_out] false.  Timeout: the fallback scores with [is_demo] and
    [timed_out] true.  A status other than 200, any other transport error,
    or a body that is not JSON: the empty result, no fallback scores. *)
Theorem run_factcheck_classified (w : world) (pairs : list pair) (st : state) :
  pairs ≠ [] →
  ∃ r,
    run_factcheck w pairs st = (Ok r, after_call (POST factcheck_url) st) ∧
    (∀ result l,
       factcheck_reply w pairs = Received (Response 200 (Some result)) →
       consistency result = Some l → l ≠ [] → is_demo result = None →
       r = result ∧ consistency r = Some l ∧ flag (is_demo r) = false) ∧
    (∀ result,
       factcheck_reply w pairs = Received (Response 200 (Some result)) →
       default [] (consistency result) = [] →
       consistency r = Some (fallback_scores pairs) ∧
       length (fallback_scores pairs) = length pairs ∧
       flag (is_demo r) = true ∧ flag (timed_out r) = false) ∧
    (factcheck_reply w pairs = TimedOut →
       consistency r = Some (fallback_scores pairs) ∧
       length (fallback_scores pairs) = length pairs ∧
       flag (is_demo r) = true ∧ flag (timed_out r) = true) ∧
    (∀ status b,
       factcheck_reply w pairs = Received (Response status b) →
       status ≠ 200%Z → r = factcheck_empty) ∧
    (factcheck_reply w pairs = Failed → r = factcheck_empty) ∧
    (factcheck_reply w pairs = Received (Response 200 None) →
       r = factcheck_empty).
Proof.
  intros Hne. eexists. split; [by apply run_factcheck_eq |].
  assert (Hlen : length (fallback_scores pairs) = length pairs)
    by apply length_map.
  split; [| split; [| split; [| split; [| split]]]].
  - intros result l -> Hl Hnil Hflag. simpl. rewrite Hl. simpl.
    destruct l as [|s l]; [done |]. by rewrite Hl, Hflag.
  - intros result -> Hempty. simpl. by rewrite Hempty.
  - by intros ->.
  - intros status b -> Hstatus. simpl.
    by destruct (Z.eqb_spec status 200).
  - by intros ->.
  - by intros ->.
Qed.

Lemma run_factcheck_classified_witness :
  FACT_CHECK_PAIRS ≠ [] ∧
  ∃ r,
    run_factcheck degraded_world FACT_CHECK_PAIRS initial =
      (Ok r, after_call (POST factcheck_url) initial) ∧
    length (default [] (consistency r)) = 6 ∧
    flag (is_demo r) = true ∧ flag (timed_out r) = false.
Proof.
  split; [done |].
  destruct (run_factcheck_classified degraded_world FACT_CHECK_PAIRS initial
              ltac:(done)) as (r & Hrun & _ & Hempty & _).
  exists r. split; [exact Hrun |].
  destruct (Hempty _ eq_refl eq_refl) as (Hc & Hlen & Hd & Ht).
  split; [| split; [exact Hd | exact Ht]].
  rewrite Hc. exact Hlen.
Defined.

Lemma sentiment_of_spec_witness :
  is_nan f_0_1 = false ∧ is_nan f_0_3 = false ∧ is_nan f_0_7 = false ∧
  (sentiment_of f_0_1 f_0_3 f_0_7 = NEGATIVE ↔
   is_max f_0_7 f_0_1 f_0_3 f_0_7).
Proof.
  split; [reflexivity |]. split; [reflexivity |]. split; [reflexivity |].
  exact (proj1 (sentiment_of_spec f_0_1 f_0_3 f_0_7 eq_refl eq_refl eq_refl)).
Defined.

(** The ties of the specification: equal scores give NEGATIVE, and a tie
    of the positive and neutral scores above the negative gives POSITIVE. *)
Example sentiment_ties :
  sentiment_of f_0_3 f_0_3 f_0_3 = NEGATIVE ∧
  sentiment_of f_0_5 f_0_5 f_0_3 = POSITIVE ∧
  sentiment_of f_0_3 f_0_5 f_0_1 = NEUTRAL.
Proof. repeat split. Qed.

(** ** The orchestrator *)

Section Orchestrator.

Variable w : world.
Implicit Types (st : state).

(** The probe returns the specified truth value and never raises. *)
Lemma check_component_eq (name url : string) st :
  check_component w name url st =
  (Ok (probe_ok w url), after_call (GET (probe_url url)) st).
Proof.
  unfold check_component, try_except, requests_get, probe_ok.
  unfold mbind, M_bind, log_call, lift, after_call. fold (probe_url url).
  destruct (get_typesystem w (probe_url url) 5) as [status| |]; simpl;
    try done.
  by destruct (status =? 200)%Z.
Qed.

(** The two text stages make one call and never raise. *)
Lemma run_sentiment_eq (text : string) st :
  ∃ r, run_sentiment w text st =
       (Ok r, after_call (POST (SENTIMENT_URL +:+ "/v1/process")) st).
Proof.
  unfold run_sentiment, try_except, requests_post_sentiment.
  unfold mbind, M_bind, log_call, lift, after_call, json.
  destruct (post_sentiment w _ _ 180) as [[status b]| |]; simpl; eauto.
  destruct (status =? 200)%Z; simpl; eauto.
  destruct b; simpl; eauto.
Qed.

Lemma run_hatecheck_eq (text : string) st :
  ∃ r, run_hatecheck w text st =
       (Ok r, after_call (POST (HATECHECK_URL +:+ "/v1/process")) st).
Proof.
  unfold run_hatecheck, try_except, requests_post_hatecheck.
  unfold mbind, M_bind, log_call, lift, after_call, json.
  destruct (post_hatecheck w _ _ 60) as [[status b]| |]; simpl; eauto.
  destruct (status =? 200)%Z; simpl; eauto.
  destruct b; simpl; eauto.
Qed.

Lemma run_factcheck_fixture st :
  ∃ r, run_factcheck w FACT_CHECK_PAIRS st =
       (Ok r, after_call (POST (FACTCHECK_URL +:+ "/v1/process")) st).
Proof. eexists. by apply run_factcheck_eq. Qed.

End Orchestrator.

(** C9. [main] runs the three probes; if any of them fails it makes no
    processing call, prints no report and returns 1; if all three succeed
    it makes the three processing calls in the order sentiment, hate-check,
    fact-check, whatever each of them comes back with, prints the report
    and returns 0. *)
Theorem main_gate (w : world) :
  (∃ sr hr fr,
     main w initial =
     if probe_ok w SENTIMENT_URL && probe_ok w HATECHECK_URL &&
        probe_ok w FACTCHECK_URL
     then (Ok 0%Z, State (probe_calls ++ process_calls)
                     (report sr hr fr FACT_CHECK_PAIRS TEST_TEXT))
     else (Ok 1%Z, State probe_calls [])) ∧
  List.filter is_process_call probe_calls = [] ∧
  List.filter is_process_call (probe_calls ++ process_calls) = process_calls.
Proof.
  split; [| by split].
  unfold main. unfold mbind at 1 2 3, M_bind.
  rewrite !check_component_eq.
  destruct (probe_ok w SENTIMENT_URL && probe_ok w HATECHECK_URL &&
            probe_ok w FACTCHECK_URL) eqn:Hok.
  - change (negb true) with false. cbv iota.
    set (st0 := after_call _ (after_call _ (after_call _ initial))).
    destruct (run_sentiment_eq w TEST_TEXT st0) as [sr Hs].
    destruct (run_hatecheck_eq w TEST_TEXT
                (after_call (POST (SENTIMENT_URL +:+ "/v1/process")) st0))
      as [hr Hh].
    destruct (run_factcheck_fixture w
                (after_call (POST (HATECHECK_URL +:+ "/v1/process"))
                   (after_call (POST (SENTIMENT_URL +:+ "/v1/process")) st0)))
      as [fr Hf].
    exists sr, hr, fr.
    unfold mbind, M_bind. cbv beta. rewrite Hs. cbv beta iota.
    rewrite Hh. cbv beta iota. rewrite Hf. cbv beta iota.
    rewrite (display_results_prints sr hr fr FACT_CHECK_PAIRS TEST_TEXT).
    reflexivity.
  - exists sentiment_empty, hatecheck_empty, factcheck_empty. reflexivity.
Qed.

(** A run against [degraded_world]: all probes succeed, the two text stages
    fail with status 500 and the fact-checking stage falls back; the run
    ends with status 0 after the three processing calls, and the report has
    one entry per fixture pair. *)
Example main_degraded :
  (main degraded_world initial).1 = Ok 0%Z ∧
  http_log (main degraded_world initial).2 = probe_calls ++ process_calls ∧
  length (List.filter is_fact_entry (console (main degraded_world initial).2))
    = 6.
Proof. vm_compute. repeat split. Qed.

(** * Further properties of the code *)

(** ** The span builder: layout of the combined text *)

Section SpanLayout.

Implicit Types (st : builder) (p : pair) (pairs : list pair).

Lemma combined_text_step i p st :
  combined_text (span_step i p st) = combined_text st +:+ pair_text i p.
Proof.
  unfold combined_text, span_step, pair_text; simpl.
  by rewrite !join_app, !join_singleton, !app_assoc_str.
Qed.

Lemma combined_text_loop pairs : ∀ i st,
  combined_text (span_loop i pairs st) =
  combined_text st +:+ join (imap (λ j, pair_text (i + j)) pairs).
Proof.
  induction pairs as [|p rest IH]; intros i st.
  - simpl. by rewrite app_empty_r.
  - simpl span_loop. rewrite IH, combined_text_step.
    simpl imap. rewrite join_cons, Nat.add_0_r, app_assoc_str.
    do 2 f_equal. f_equal. apply imap_ext. intros j q _. simpl.
    f_equal. lia.
Qed.

Lemma length_app_pos (a : ascii) (s t : string) :
  0 < String.length (String a s +:+ t).
Proof. rewrite app_cons. simpl. lia. Qed.

Lemma spans_in_order_weaken (l : list span) (lo lo' hi : nat) :
  lo ≤ lo' → spans_in_order lo' l hi → spans_in_order lo l hi.
Proof. destruct l as [|s l]; simpl; intros; [lia | intuition lia]. Qed.

(** What the loop appends, seen as spans: they follow one another from
    the cursor on, and the cursor ends behind the last of them. *)
Lemma span_loop_in_order pairs : ∀ i st, ∃ cs fs,
  claims_all (span_loop i pairs st) = claims_all st ++ cs ∧
  facts_all (span_loop i pairs st) = facts_all st ++ fs ∧
  spans_in_order (current_pos st) (interleave cs fs)
    (current_pos (span_loop i pairs st)).
Proof.
  induction pairs as [|p rest IH]; intros i st.
  - exists [], []. rewrite !app_nil_r. simpl. auto.
  - destruct (IH (S i) (span_step i p st)) as (cs & fs & Hc & Hf & Hord).
    simpl span_loop. rewrite Hc, Hf.
    unfold span_step at 1 2. cbn [claims_all facts_all].
    eexists (_ :: cs), (_ :: fs). rewrite <- !app_assoc.
    split; [reflexivity |]. split; [reflexivity |].
    cbn [interleave spans_in_order claim_span fact_span s_begin s_end
         c_begin c_end f_begin f_end].
    pose proof (length_app_pos "C" "laim " (str (i + 1) +:+ ": ")) as Hcp.
    pose proof (length_app_pos " " "Fact " (str (i + 1) +:+ ": ")) as Hfp.
    change (String "C" "laim " +:+ ?t) with ("Claim " +:+ t) in Hcp.
    change (String " " "Fact " +:+ ?t) with (" Fact " +:+ t) in Hfp.
    repeat split; try lia.
    eapply spans_in_order_weaken; [| exact Hord].
    unfold span_step. cbn [current_pos]. lia.
Qed.

End SpanLayout.

(** X1. The combined text of the request is the concatenation, in the order
    of the pairs, of one line per pair: "Claim i: " and the claim, " Fact
    i: " and the fact, and a newline, with i the position of the pair
    counted from 1. *)
Theorem combined_text_layout (claim_fact_pairs : list pair) :
  fp_text (factcheck_payload_of claim_fact_pairs) =
  join (imap pair_text claim_fact_pairs).
Proof.
  unfold factcheck_payload_of, build_spans. cbn [fp_text].
  by rewrite combined_text_loop.
Qed.

(** X2. In the request the spans of the records follow one another in the
    order claim 1, fact 1, claim 2, fact 2, ...: no span runs backwards
    (begin <= end), each begins strictly after the end of the one before
    (and the first after offset 0), and the last ends within the combined
    text.  So the spans are pairwise disjoint and all lie in the text. *)
Theorem spans_ordered (claim_fact_pairs : list pair) :
  let payload := factcheck_payload_of claim_fact_pairs in
  spans_in_order 0
    (interleave (fp_claims_all payload) (fp_facts_all payload))
    (String.length (fp_text payload)).
Proof.
  unfold factcheck_payload_of, build_spans.
  cbn [fp_text fp_claims_all fp_facts_all].
  destruct (span_loop_in_order claim_fact_pairs 0 builder_init)
    as (cs & fs & -> & -> & Hord).
  destruct (builder_inv_loop claim_fact_pairs 0 builder_init builder_inv_init)
    as (Hpos & _ & _).
  by rewrite <- Hpos.
Qed.

(** ** The [claim_index] field *)

Section ClaimIndex.

Implicit Types (st : builder) (p q : pair) (pairs : list pair).

Lemma span_step_texts i p q st :
  claim p = claim q → fact p = fact q → span_step i p st = span_step i q st.
Proof. intros Hc Hf. unfold span_step. by rewrite Hc, Hf. Qed.

Lemma span_loop_texts pairs : ∀ pairs' i st,
  same_texts pairs pairs' → span_loop i pairs st = span_loop i pairs' st.
Proof.
  induction pairs as [|p rest IH]; intros [|q rest'] i st [Hc Hf];
    try done; simpl in *.
  injection Hc as Hc Hcs. injection Hf as Hf Hfs.
  rewrite (span_step_texts i p q st Hc Hf). by apply IH.
Qed.

Lemma fallback_scores_texts pairs : ∀ pairs',
  same_texts pairs pairs' → fallback_scores pairs = fallback_scores pairs'.
Proof.
  induction pairs as [|p rest IH]; intros [|q rest'] [Hc Hf];
    try done; simpl in *.
  injection Hc as Hc Hcs. injection Hf as Hf Hfs.
  unfold fallback_scores in *. simpl. rewrite Hc, Hf. f_equal. by apply IH.
Qed.

End ClaimIndex.

(** X3. The [claim_index] field of a pair is never read: two pair lists
    with the same claims and facts, in the same order, give the same
    request to the fact-checking service and the same fallback scores.  The
    numbers in the text come from the position in the list. *)
Theorem claim_index_ignored (pairs pairs' : list pair) :
  same_texts pairs pairs' →
  factcheck_payload_of pairs = factcheck_payload_of pairs' ∧
  generate_demo_scores pairs = generate_demo_scores pairs'.
Proof.
  intros Hsame. split.
  - unfold factcheck_payload_of, build_spans.
    by rewrite (span_loop_texts pairs pairs' 0 builder_init Hsame).
  - rewrite !generate_demo_scores_ok.
    by rewrite (fallback_scores_texts pairs pairs' Hsame).
Qed.

Lemma claim_index_ignored_witness :
  same_texts [Pair "sky" "blue" 0; Pair "sea" "deep" 1]
             [Pair "sky" "blue" 7; Pair "sea" "deep" 7] ∧
  factcheck_payload_of [Pair "sky" "blue" 0; Pair "sea" "deep" 1] =
  factcheck_payload_of [Pair "sky" "blue" 7; Pair "sea" "deep" 7].
Proof.
  split; [by split |].
  apply (claim_index_ignored [Pair "sky" "blue" 0; Pair "sea" "deep" 1]
           [Pair "sky" "blue" 7; Pair "sea" "deep" 7]).
  by split.
Defined.

(** ** The fallback scorer: symmetry, letter case, disjoint texts *)

Section ScorerAlgebra.

Implicit Types (s t : string) (c : ascii) (A B : gset string).

Lemma jaccard_score_comm A B : jaccard_score A B = jaccard_score B A.
Proof.
  unfold jaccard_score.
  by rewrite (comm_L (∪) A B), (comm_L (∩) A B).
Qed.

Lemma lower_char_idemp c : lower_char (lower_char c) = lower_char c.
Proof. destruct c as [[] [] [] [] [] [] [] []]; reflexivity. Qed.

Lemma lower_idemp s : lower (lower s) = lower s.
Proof.
  induction s as [|c r IH]; [done |]. simpl.
  by rewrite lower_char_idemp, IH.
Qed.

Lemma words_lower s : words (lower s) = words s.
Proof. unfold words. by rewrite lower_idemp. Qed.

(** No shared token, and a token somewhere: the quotient is 0 and the
    score is the offset 0.1. *)
Lemma jaccard_score_disjoint A B :
  A ∩ B = ∅ → A ∪ B ≠ ∅ → jaccard_score A B = f_0_1.
Proof.
  intros Hi Hu. unfold jaccard_score.
  destruct (decide (A ∪ B = ∅)) as [|_]; [done |].
  rewrite Hi, size_empty. unfold of_int at 1. simpl N.of_nat.
  assert (Hn : size (A ∪ B) ≠ 0).
  { intros H0. apply Hu. apply leibniz_equiv. by apply size_empty_iff. }
  unfold of_int. destruct (N.of_nat (size (A ∪ B))) as [|n] eqn:En; [lia |].
  reflexivity.
Qed.

End ScorerAlgebra.

(** X4. The fallback score is symmetric: exchanging claim and fact does not
    change it. *)
Theorem fallback_score_symmetric (claim_text fact_text : string) (i j : nat) :
  generate_demo_scores [Pair claim_text fact_text i] =
  generate_demo_scores [Pair fact_text claim_text j].
Proof.
  rewrite !generate_demo_scores_ok. unfold fallback_scores, fallback_score.
  simpl. by rewrite jaccard_score_comm.
Qed.

(** X5. The fallback score ignores letter case: lower-casing the claim, the
    fact or both beforehand does not change it. *)
Theorem fallback_score_case_insensitive (claim_text fact_text : string)
    (i : nat) :
  generate_demo_scores [Pair (lower claim_text) (lower fact_text) i] =
  generate_demo_scores [Pair claim_text fact_text i] ∧
  generate_demo_scores [Pair (lower claim_text) fact_text i] =
  generate_demo_scores [Pair claim_text fact_text i] ∧
  generate_demo_scores [Pair claim_text (lower fact_text) i] =
  generate_demo_scores [Pair claim_text fact_text i].
Proof.
  rewrite !generate_demo_scores_ok. unfold fallback_scores, fallback_score.
  simpl. by rewrite !words_lower.
Qed.

(** X6. Two texts that share no token, at least one of which has a token,
    get exactly the score 0.1: the quotient is 0 and only the offset is
    left. *)
Theorem fallback_score_disjoint (claim_text fact_text : string) (i : nat) :
  words claim_text ∩ words fact_text = ∅ →
  words claim_text ∪ words fact_text ≠ ∅ →
  generate_demo_scores [Pair claim_text fact_text i] = Ok [f_0_1].
Proof.
  intros Hi Hu. rewrite generate_demo_scores_ok.
  unfold fallback_scores, fallback_score. simpl.
  by rewrite jaccard_score_disjoint.
Qed.

Lemma fallback_score_disjoint_witness :
  words "the moon" ∩ words "A Star" = ∅ ∧
  words "the moon" ∪ words "A Star" ≠ ∅ ∧
  generate_demo_scores [Pair "the moon" "A Star" 0] = Ok [f_0_1].
Proof.
  assert (Hi : words "the moon" ∩ words "A Star" = ∅)
    by (apply leibniz_equiv, size_empty_iff; vm_compute; reflexivity).
  assert (Hu : words "the moon" ∪ words "A Star" ≠ ∅).
  { intros H0. assert (Hs : size (words "the moon" ∪ words "A Star") = 0)
      by (rewrite H0; apply size_empty).
    vm_compute in Hs. discriminate. }
  split; [exact Hi |]. split; [exact Hu |].
  exact (fallback_score_disjoint "the moon" "A Star" 0 Hi Hu).
Defined.

(** ** The support tiers are monotone *)

(** [x < y <= z] gives [x < z], on numbers. *)
Lemma flt_fle_trans (x y z : float) :
  is_nan x = false → is_nan y = false → is_nan z = false →
  flt x y = true → fle y z = true → flt x z = true.
Proof.
  intros Hx Hy Hz Hxy Hyz.
  apply (flt_key x y Hx Hy) in Hxy. apply (fle_key y z Hy Hz) in Hyz.
  apply (flt_key x z Hx Hz).
  unfold key_lt in *.
  destruct (key x) as [[x1 x2] x3], (key y) as [[y1 y2] y3],
    (key z) as [[z1 z2] z3]; simpl in *. lia.
Qed.

(** X7. A higher score never gets a lower tier: for two scores that are
    numbers, [s <= t] implies that the tier of [s] is at most the tier of
    [t] in the order CONTRADICTED, WEAKLY, PARTIALLY, SUPPORTED. *)
Theorem support_status_monotone (s t : float) :
  is_nan s = false → is_nan t = false → fle s t = true →
  tier_rank (support_status s) ≤ tier_rank (support_status t).
Proof.
  intros Hs Ht Hle. unfold support_status.
  destruct (flt f_0_7 s) eqn:S7.
  { by rewrite (flt_fle_trans f_0_7 s t eq_refl Hs Ht S7 Hle). }
  destruct (flt f_0_5 s) eqn:S5.
  { rewrite (flt_fle_trans f_0_5 s t eq_refl Hs Ht S5 Hle).
    destruct (flt f_0_7 t); simpl; lia. }
  destruct (flt f_0_3 s) eqn:S3.
  { rewrite (flt_fle_trans f_0_3 s t eq_refl Hs Ht S3 Hle).
    destruct (flt f_0_7 t), (flt f_0_5 t); simpl; lia. }
  simpl. lia.
Qed.

Lemma support_status_monotone_witness :
  is_nan f_0_3 = false ∧ is_nan f_1_0 = false ∧ fle f_0_3 f_1_0 = true ∧
  tier_rank (support_status f_0_3) ≤ tier_rank (support_status f_1_0).
Proof.
  split; [reflexivity |]. split; [reflexivity |]. split; [reflexivity |].
  exact (support_status_monotone f_0_3 f_1_0 eq_refl eq_refl eq_refl).
Defined.

(** ** The structure of the report *)

Section ReportStructure.

Implicit Types (its : list item).


Lemma filter_cons_false (f : item → bool) (it : item) its :
  f it = false → List.filter f (it :: its) = List.filter f its.
Proof. intros H. simpl. by rewrite H. Qed.




(** The entries of the fact-check section are its only fact entries. *)
Lemma fact_items_entries (r : factcheck_result) (pairs : list pair) :
  List.filter is_fact_entry (fact_items r pairs) =
  fact_entries (default [] (consistency r)) pairs.
Proof.
  unfold fact_items. rewrite filter_cons_false by done.
  destruct (factcheck_truthy r) eqn:Ht.
  - cbv zeta. destruct (default [] (consistency r)) as [|s l] eqn:Hl.
    + simpl. unfold fact_entries. by destruct pairs.
    + simpl list_truthy. cbv iota.
      rewrite filter_cons_false by (by destruct (default false (is_demo r))).
      rewrite filter_cons_false by done.
      apply filter_all. apply Forall_imap_item. done.
  - rewrite (fact_truthy_false r Ht). simpl.
    unfold fact_entries. by destruct pairs.
Qed.

Lemma sentiment_truthy_false (r : sentiment_result) :
  sentiment_truthy r = false → selections r = None.
Proof.
  unfold sentiment_truthy. destruct (selections r); [| done].
  rewrite bool_decide_eq_true_2 by eauto. done.
Qed.

(** The score lines of the sentiment section: one per sentence that has a
    [pos] score. *)
Lemma sentiment_items_scores (r : sentiment_result) (text : string) :
  List.filter is_sentiment_scores (sentiment_items r text) =
  concat (map (λ selection,
                 concat (map sentence_items (default [] (sentences selection))))
              (default [] (selections r))).
Proof.
  unfold sentiment_items.
  change ([?a; ?b] ++ ?l) with (a :: b :: l).
  rewrite !filter_cons_false by done.
  destruct (sentiment_truthy r) eqn:Ht.
  - destruct (default [] (selections r)) as [|sel sels] eqn:Hs; [done |].
    simpl list_truthy. simpl andb. cbv iota zeta.
    rewrite filter_cons_false by done.
    apply filter_all.
    apply Forall_concat_map. intros selection.
    apply Forall_concat_map. intros sentence. unfold sentence_items.
    destruct (pos sentence); by repeat constructor.
  - by rewrite (sentiment_truthy_false r Ht).
Qed.

End ReportStructure.


(** X9. The fact-check entries of the report are, in order, one per index
    that both the consistency list and the pair list have: entry number
    i + 1 shows the claim and the fact of pair i, the score at index i and
    the tier of that score.  Scores beyond the pairs and pairs beyond the
    scores are not shown. *)
Theorem report_fact_entries (sr : sentiment_result) (hr : hatecheck_result)
    (fr : factcheck_result) (claim_fact_pairs : list pair)
    (test_text : string) (st : state) :
  ∃ out,
    display_results sr hr fr claim_fact_pairs test_text st =
      (Ok tt, State (http_log st) (console st ++ out)) ∧
    List.filter is_fact_entry out =
      imap (λ i ps, FactEntry (i + 1) (claim ps.1) (fact ps.1) ps.2
                      (support_status ps.2))
           (zip claim_fact_pairs (default [] (consistency fr))).
Proof.
  exists (report sr hr fr claim_fact_pairs test_text).
  split; [apply display_results_prints |].
  unfold report. rewrite filter_cons_false by done.
  rewrite !List.filter_app.
  rewrite (sentiment_items_other is_fact_entry) by done.
  by rewrite hate_items_fact, fact_items_entries.
Qed.

(** X10. The score lines of the sentiment section are, in order, one per
    sentence of the response that has a [pos] score, each with the label of
    its three scores; a sentence without [pos] is skipped. *)
Theorem report_sentiment_entries (sr : sentiment_result)
    (hr : hatecheck_result) (fr : factcheck_result)
    (claim_fact_pairs : list pair) (test_text : string) (st : state) :
  ∃ out,
    display_results sr hr fr claim_fact_pairs test_text st =
      (Ok tt, State (http_log st) (console st ++ out)) ∧
    List.filter is_sentiment_scores out =
      concat (map (λ selection,
                     concat (map sentence_items
                               (default [] (sentences selection))))
                  (default [] (selections sr))).
Proof.
  exists (report sr hr fr claim_fact_pairs test_text).
  split; [apply display_results_prints |].
  unfold report. rewrite filter_cons_false by done.
  rewrite !List.filter_app.
  rewrite sentiment_items_scores.
  rewrite (filter_none is_sentiment_scores (hate_items hr test_text)).
  - rewrite (filter_none is_sentiment_scores (fact_items fr claim_fact_pairs)).
    + by rewrite !app_nil_r.
    + unfold fact_items. constructor; [done |].
      destruct (factcheck_truthy fr); [| by repeat constructor].
      cbv zeta. destruct (list_truthy _); [| by repeat constructor].
      constructor; [by destruct (default false (is_demo fr)) |].
      constructor; [done |]. apply Forall_imap_item. done.
  - unfold hate_items. repeat (constructor; [done |]).
    destruct (hatecheck_truthy hr); [| by repeat constructor].
    constructor; [done |].
    destruct (list_truthy _); [| by repeat constructor].
    apply Forall_imap_item. done.
Qed.

(** ** Truncation of the input text *)

Section Truncate.

Implicit Types (s t : string) (n : nat).


Lemma substring_0_all s : String.substring 0 (String.length s) s = s.
Proof. induction s as [|a s IH]; simpl; [done | by rewrite IH]. Qed.


Lemma slice_0 n s : slice 0 n s = String.substring 0 n s.
Proof. unfold slice. by rewrite Nat.sub_0_r. Qed.

End Truncate.


(** ** The service client never raises *)

Section TextStages.

Variable w : world.
Implicit Types (st : state) (text : string).

Lemma run_sentiment_closed text st :
  run_sentiment w text st =
  (Ok (stage_result sentiment_empty
         (post_sentiment w (SENTIMENT_URL +:+ "/v1/process")
            (sentiment_payload_of text) 180)),
   after_call (POST (SENTIMENT_URL +:+ "/v1/process")) st).
Proof.
  unfold run_sentiment, try_except, requests_post_sentiment, stage_result.
  unfold mbind, M_bind, log_call, lift, after_call, json.
  fold (sentiment_payload_of text).
  destruct (post_sentiment w _ _ 180) as [[status b]| |]; simpl; try done.
  destruct (status =? 200)%Z; simpl; [| done]. by destruct b.
Qed.

Lemma run_hatecheck_closed text st :
  run_hatecheck w text st =
  (Ok (stage_result hatecheck_empty
         (post_hatecheck w (HATECHECK_URL +:+ "/v1/process")
            (hatecheck_payload_of text) 60)),
   after_call (POST (HATECHECK_URL +:+ "/v1/process")) st).
Proof.
  unfold run_hatecheck, try_except, requests_post_hatecheck, stage_result.
  unfold mbind, M_bind, log_call, lift, after_call, json.
  fold (hatecheck_payload_of text).
  destruct (post_hatecheck w _ _ 60) as [[status b]| |]; simpl; try done.
  destruct (status =? 200)%Z; simpl; [| done]. by destruct b.
Qed.

Lemma text_selections_exact text :
  Forall (λ sel, Forall sentence_exact (sel_sentences sel))
         (text_selections text).
Proof.
  repeat constructor. simpl. rewrite slice_0. apply substring_0_all.
Qed.

End TextStages.


(** X13. [run_sentiment] never raises and makes exactly one POST, with a
    request whose one sentence spans the whole text (begin 0, end and
    doc_len the length of the text).  It returns the decoded body of a 200
    response, and the empty dictionary in every other case: another status,
    a body that is not JSON, a connection error, and also a timeout, for
    which this stage has no fallback. *)
Theorem run_sentiment_total (w : world) (text : string) (st : state) :
  let url := SENTIMENT_URL +:+ "/v1/process" in
  let payload := sentiment_payload_of text in
  run_sentiment w text st =
    (Ok (stage_result sentiment_empty (post_sentiment w url payload 180)),
     State (http_log st ++ [POST url]) (console st)) ∧
  sp_doc_len payload = String.length text ∧
  Forall (λ sel, Forall sentence_exact (sel_sentences sel))
         (sp_selections payload).
Proof.
  split; [apply run_sentiment_closed |].
  split; [done | apply text_selections_exact].
Qed.

(** X14. [run_hatecheck] never raises and makes exactly one POST, with a
    request whose one sentence spans the whole text.  It returns the decoded
    body of a 200 response, and the empty dictionary in every other case, a
    timeout included. *)
Theorem run_hatecheck_total (w : world) (text : string) (st : state) :
  let url := HATECHECK_URL +:+ "/v1/process" in
  let payload := hatecheck_payload_of text in
  run_hatecheck w text st =
    (Ok (stage_result hatecheck_empty (post_hatecheck w url payload 60)),
     State (http_log st ++ [POST url]) (console st)) ∧
  hp_doc_len payload = String.length text ∧
  Forall (λ sel, Forall sentence_exact (sel_sentences sel))
         (hp_selections payload).
Proof.
  split; [apply run_hatecheck_closed |].
  split; [done | apply text_selections_exact].
Qed.

(** X15. [run_factcheck] never raises, for any pair list and any behaviour
    of the service.  On the empty list it returns the empty dictionary
    without making a call; on any other list it makes exactly one POST.  It
    prints no report item. *)
Theorem run_factcheck_total (w : world) (claim_fact_pairs : list pair)
    (st : state) :
  ∃ r,
    run_factcheck w claim_fact_pairs st =
      (Ok r,
       State (http_log st ++
                match claim_fact_pairs with
                | [] => []
                | _ :: _ => [POST (FACTCHECK_URL +:+ "/v1/process")]
                end)
             (console st)) ∧
    match claim_fact_pairs with
    | [] => r = factcheck_empty
    | _ :: _ => True
    end.
Proof.
  destruct claim_fact_pairs as [|p ps].
  - exists factcheck_empty. simpl. rewrite app_nil_r. by destruct st.
  - eexists. split; [| done].
    by rewrite (run_factcheck_eq w (p :: ps) st).
Qed.
